(** * capacitor-secure-storage: the storage engines and their plugin bridges

    A shallow embedding of

    - Android: the class [SecureStorage] (AES-GCM under an Android KeyStore
      key, blobs kept in SharedPreferences) and the Capacitor bridge
      [SecureStoragePlugin];
    - iOS: the class [SecureStorage] of [SecureStorage.swift] (items of the
      Keychain) and its bridge [SecureStoragePlugin].

    A Swift string is modelled by the [string] of its UTF-8 bytes.  A Java
    string is a sequence of UTF-16 code units and may hold a surrogate that
    has no partner, which UTF-8 cannot write: it is modelled by the [string]
    of its bytes in generalised UTF-8, that is UTF-8 with the three bytes
    [ED A0..BF 80..BF] for an unpaired surrogate.  [value.getBytes()] and
    [new String(bytes)] are the encoder and the decoder of Android's default
    charset, UTF-8, with their replacements: see [Java.getBytes] and
    [Java.newString].  The Android
    and iOS platform services the engines call (KeyStore, Cipher, Base64,
    Keychain) are not part of the repository: they appear as a record of
    operations, [Android.Platform], and as fault injections on the Keychain
    calls, [IOS.Faults]. *)

From Stdlib Require Import NArith ZArith Lia.
From Stdlib Require Import Strings.Ascii Strings.Byte.
From stdpp Require Import base option list strings gmap fin_maps.

Local Open Scope string_scope.
Local Open Scope list_scope.

(** ** Java: exceptions and completion of a method body *)

Module Java.

(** The exception classes that the two Java classes can meet.  The first
    group is checked (subclasses of [GeneralSecurityException]); the
    second group is unchecked. *)
Inductive exn : Type :=
| KeyStoreException
| NoSuchAlgorithmException
| UnrecoverableEntryException
| NoSuchPaddingException
| InvalidKeyException
| InvalidAlgorithmParameterException
| BadPaddingException
| AEADBadTagException
| IllegalBlockSizeException
| IllegalArgumentException
| ArrayIndexOutOfBoundsException
| NullPointerException
| ProviderException.

Global Instance exn_eq_dec : EqDecision exn.
Proof. solve_decision. Defined.

(** [instanceOf e c]: an exception of class [e] is caught by
    [catch (c x)].  [AEADBadTagException extends BadPaddingException]. *)
Definition instanceOf (e c : exn) : bool :=
  match e, c with
  | AEADBadTagException, BadPaddingException => true
  | _, _ => bool_decide (e = c)
  end.

(** A multi-catch clause [catch (C1 | C2 | ... e)]. *)
Definition caught_by (classes : list exn) (e : exn) : bool :=
  existsb (instanceOf e) classes.

Inductive completion (A : Type) : Type :=
| Normal (a : A)
| Throw (e : exn).
Global Arguments Normal {A} a.
Global Arguments Throw {A} e.

Global Instance byte_eq_dec : EqDecision byte := Byte.byte_eq_dec.

(** [new byte[n]] *)
Definition new_byte_array (n : nat) : list byte := replicate n x00.

(** [System.arraycopy(src, srcPos, dest, destPos, length)], returning the
    updated [dest]; an out-of-range copy throws. *)
Definition arraycopy (src : list byte) (srcPos : nat) (dest : list byte)
    (destPos len : nat) : completion (list byte) :=
  if (srcPos + len <=? length src)%nat && (destPos + len <=? length dest)%nat
  then Normal (take destPos dest ++ take len (drop srcPos src)
                 ++ drop (destPos + len) dest)
  else Throw ArrayIndexOutOfBoundsException.

(** *** Strings and the default charset

    UTF-8, after table 3-7 of the Unicode standard: the lead byte of a
    sequence of two to four bytes gives the length of the sequence and the
    range of its second byte. *)
Definition in_range (lo hi : N) (b : byte) : bool :=
  ((lo <=? Byte.to_N b) && (Byte.to_N b <=? hi))%N.

Definition continuation (b : byte) : bool := in_range 0x80 0xBF b.

Definition lead (b0 : byte) : option (nat * (N * N)) :=
  if in_range 0xC2 0xDF b0 then Some (2, (0x80, 0xBF)%N)
  else if in_range 0xE0 0xE0 b0 then Some (3, (0xA0, 0xBF)%N)
  else if in_range 0xED 0xED b0 then Some (3, (0x80, 0x9F)%N)
  else if in_range 0xE1 0xEF b0 then Some (3, (0x80, 0xBF)%N)
  else if in_range 0xF0 0xF0 b0 then Some (4, (0x90, 0xBF)%N)
  else if in_range 0xF1 0xF3 b0 then Some (4, (0x80, 0xBF)%N)
  else if in_range 0xF4 0xF4 b0 then Some (4, (0x80, 0x8F)%N)
  else None.

(** The length of the well-formed UTF-8 sequence at the head of [bs], when
    there is one. *)
Definition utf8_sequence (bs : list byte) : option nat :=
  match bs with
  | [] => None
  | b0 :: r0 =>
      if in_range 0x00 0x7F b0 then Some 1
      else
        match lead b0, r0 with
        | Some (n, (lo, hi)), b1 :: r1 =>
            if negb (in_range lo hi b1) then None
            else if (n =? 2)%nat then Some 2
            else
              match r1 with
              | b2 :: r2 =>
                  if negb (continuation b2) then None
                  else if (n =? 3)%nat then Some 3
                  else
                    match r2 with
                    | b3 :: _ => if continuation b3 then Some 4 else None
                    | [] => None
                    end
              | [] => None
              end
        | _, _ => None
        end
  end.

(** The three bytes of an unpaired surrogate at the head of [bs]. *)
Definition surrogate_at (bs : list byte) : bool :=
  match bs with
  | b0 :: b1 :: b2 :: _ =>
      in_range 0xED 0xED b0 && in_range 0xA0 0xBF b1 && continuation b2
  | _ => false
  end.

(** How many bytes at the head of [bs], which do not start a well-formed
    sequence, start none: the longest beginning of a sequence, one byte at
    least. *)
Definition ill_formed_length (bs : list byte) : nat :=
  match bs with
  | b0 :: b1 :: r1 =>
      match lead b0 with
      | Some (_, (lo, hi)) =>
          if negb (in_range lo hi b1) then 1
          else
            match r1 with
            | b2 :: _ => if continuation b2 then 3 else 2
            | [] => 2
            end
      | None => 1
      end
  | _ => 1
  end.

(** A string without unpaired surrogate: its bytes are well-formed UTF-8. *)
Fixpoint well_formed_utf8 (fuel : nat) (bs : list byte) : bool :=
  match bs with
  | [] => true
  | _ :: _ =>
      match fuel with
      | O => false
      | S fuel' =>
          match utf8_sequence bs with
          | Some n => well_formed_utf8 fuel' (drop n bs)
          | None => false
          end
      end
  end.

Definition well_formed (s : string) : bool :=
  let bs := String.list_byte_of_string s in
  well_formed_utf8 (length bs) bs.

(** The encoder: well-formed sequences go through; an unpaired surrogate
    becomes the replacement byte [?] of the charset.  (Other bytes stand
    for no Java string; they become [?] one by one.) *)
Fixpoint encode_utf8 (fuel : nat) (bs : list byte) : list byte :=
  match fuel, bs with
  | S fuel', _ :: _ =>
      match utf8_sequence bs with
      | Some n => take n bs ++ encode_utf8 fuel' (drop n bs)
      | None =>
          x3f :: encode_utf8 fuel' (drop (if surrogate_at bs then 3 else 1) bs)
      end
  | _, _ => []
  end.

(** The decoder: well-formed sequences go through; bytes that start none
    become U+FFFD, the replacement character ([EF BF BD] in UTF-8). *)
Fixpoint decode_utf8 (fuel : nat) (bs : list byte) : list byte :=
  match fuel, bs with
  | S fuel', _ :: _ =>
      match utf8_sequence bs with
      | Some n => take n bs ++ decode_utf8 fuel' (drop n bs)
      | None =>
          [xef; xbf; xbd] ++ decode_utf8 fuel' (drop (ill_formed_length bs) bs)
      end
  | _, _ => []
  end.

(** [s.getBytes()] and [new String(bytes)], with the default charset of
    Android, UTF-8. *)
Definition getBytes (s : string) : list byte :=
  let bs := String.list_byte_of_string s in
  encode_utf8 (length bs) bs.
Definition newString (bs : list byte) : string :=
  String.string_of_list_byte (decode_utf8 (length bs) bs).

End Java.

(** ** Capacitor: a plugin call and its answer *)

Module Capacitor.

(** What a bridge hands back to JavaScript: [{value: ...}] or
    [{keys: [...]}]. *)
Inductive JSObject : Type :=
| JSValue (value : option string)
| JSKeys (keys : list string).

(** [call.resolve()], [call.resolve(data)], [call.reject(message)] and
    [call.reject(message, exception)]. *)
Inductive PluginResult : Type :=
| resolve (data : option JSObject)
| reject (message : string) (cause : option Java.exn).

(** The data of a plugin call; [call.getString(name)] is a lookup. *)
Abbreviation PluginCall := (gmap string string).
Definition getString (c : PluginCall) (name : string) : option string :=
  c !! name.

End Capacitor.

(** ** Android *)

Module Android.
Import Java Capacitor.

(** A handle on a key held by the AndroidKeyStore. *)
Definition SecretKey : Type := N.

Inductive opmode : Type := ENCRYPT_MODE | DECRYPT_MODE.

(** [new GCMParameterSpec(tLen, iv)] *)
Record GCMParameterSpec : Type := mkGCMParameterSpec {
  tLen : nat;
  specIV : list byte
}.

(** An initialised [javax.crypto.Cipher]. *)
Record Cipher : Type := mkCipher {
  cipherMode : opmode;
  cipherKey : SecretKey;
  cipherIV : list byte
}.

(** [cipher.getIV()] *)
Definition getIV (c : Cipher) : list byte := cipherIV c.

(** The platform services used by [SecureStorage].  [Cipher_init_ENCRYPT]
    takes the number of the random draw: the provider picks the IV. *)
Record Platform : Type := mkPlatform {
  keyStore_getKey : string -> completion (option SecretKey);
  Cipher_getInstance : string -> completion unit;
  Cipher_init_ENCRYPT : option SecretKey -> nat -> completion Cipher;
  Cipher_init_DECRYPT :
    option SecretKey -> GCMParameterSpec -> completion Cipher;
  Cipher_doFinal : Cipher -> list byte -> completion (list byte);
  Base64_encodeToString : list byte -> string;
  Base64_decode : string -> completion (list byte)
}.

(** One line of logcat written by [Log.e(tag, msg, e)]. *)
Record LogEntry : Type := mkLogEntry {
  logTag : string;
  logMsg : string;
  logCause : exn
}.

(** What the engine reads and writes: the SharedPreferences file
    [SECURE_STORAGE_PREFS], logcat, and the count of IVs drawn so far. *)
Record Device : Type := mkDevice {
  sharedPreferences : gmap string string;
  logcat : list LogEntry;
  draws : nat
}.

(** A method body: state passing with Java's exceptional completion.  The
    state reached before a throw is kept. *)
Definition M (A : Type) : Type := Device -> completion A * Device.

Definition ret {A} (a : A) : M A := fun d => (Normal a, d).

Definition bind {A B} (m : M A) (k : A -> M B) : M B :=
  fun d =>
    match m d with
    | (Normal a, d') => k a d'
    | (Throw e, d') => (Throw e, d')
    end.

(** A platform call, which may throw. *)
Definition call {A} (c : completion A) : M A := fun d => (c, d).

(** [try { body } catch (C1 | ... e) { handler }] *)
Definition try_catch {A} (body : M A) (classes : list exn)
    (handler : exn -> M A) : M A :=
  fun d =>
    match body d with
    | (Normal a, d') => (Normal a, d')
    | (Throw e, d') =>
        if caught_by classes e then handler e d' else (Throw e, d')
    end.

Global Instance M_ret : MRet M := @ret.
Global Instance M_bind : MBind M := fun A B k m => bind m k.

(** [Log.e(tag, msg, e)] *)
Definition Log_e (tag msg : string) (e : exn) : M unit :=
  fun d => (Normal tt,
            mkDevice (sharedPreferences d)
                     (logcat d ++ [mkLogEntry tag msg e]) (draws d)).

(** [sharedPreferences.getString(key, null)] *)
Definition prefs_getString (key : string) : M (option string) :=
  fun d => (Normal (sharedPreferences d !! key), d).

(** [sharedPreferences.edit().putString(key, v).apply()] *)
Definition prefs_putString (key v : string) : M unit :=
  fun d => (Normal tt,
            mkDevice (<[key := v]> (sharedPreferences d)) (logcat d) (draws d)).

(** [sharedPreferences.edit().remove(key).apply()] *)
Definition prefs_remove (key : string) : M unit :=
  fun d => (Normal tt,
            mkDevice (delete key (sharedPreferences d)) (logcat d) (draws d)).

(** [sharedPreferences.edit().clear().apply()] *)
Definition prefs_clear : M unit :=
  fun d => (Normal tt, mkDevice ∅ (logcat d) (draws d)).

(** [sharedPreferences.getAll().keySet().toArray(new String[0])]: the keys,
    in the order the map yields them. *)
Definition prefs_keySet : M (list string) :=
  fun d => (Normal ((map_to_list (sharedPreferences d)).*1), d).

(** The provider draws a fresh IV at each [cipher.init(ENCRYPT_MODE, key)]. *)
Definition next_draw : M nat :=
  fun d => (Normal (draws d),
            mkDevice (sharedPreferences d) (logcat d) (S (draws d))).

Module SecureStorage.

Definition TAG : string := "SecureStorage".
Definition ENCRYPTION_ALGORITHM : string := "AES".
Definition ENCRYPTION_BLOCK_MODE : string := "GCM".
Definition ENCRYPTION_PADDING : string := "NoPadding".
Definition ENCRYPTION_TRANSFORMATION : string :=
  ENCRYPTION_ALGORITHM +:+ "/" +:+ ENCRYPTION_BLOCK_MODE +:+ "/"
    +:+ ENCRYPTION_PADDING.
Definition MASTER_KEY_ALIAS : string := "SECURE_STORAGE_MASTER_KEY".
Definition GCM_IV_LENGTH : nat := 12.
Definition GCM_TAG_LENGTH : nat := 128.

(** The multi-catch clauses of [set] and of [get]. *)
Definition set_catches : list exn :=
  [KeyStoreException; NoSuchAlgorithmException; UnrecoverableEntryException;
   NoSuchPaddingException; InvalidKeyException; BadPaddingException;
   IllegalBlockSizeException].

Definition get_catches : list exn :=
  [KeyStoreException; NoSuchAlgorithmException; UnrecoverableEntryException;
   NoSuchPaddingException; InvalidKeyException;
   InvalidAlgorithmParameterException; BadPaddingException;
   IllegalBlockSizeException].

Section Engine.
Variable p : Platform.

(** [public void remove(String key)] *)
Definition remove (key : string) : M unit := prefs_remove key.

(** [public void clear()] *)
Definition clear : M unit := prefs_clear.

(** [public String[] keys()] *)
Definition keys : M (list string) := prefs_keySet.

(** The statements of [set] inside [try], after the null test. *)
Definition set_encrypt_and_put (key value : string) : M unit :=
  secretKey ← call (keyStore_getKey p MASTER_KEY_ALIAS);
  call (Cipher_getInstance p ENCRYPTION_TRANSFORMATION);;
  n ← next_draw;
  cipher ← call (Cipher_init_ENCRYPT p secretKey n);
  let iv := getIV cipher in
  encryptedBytes ← call (Cipher_doFinal p cipher (getBytes value));
  let combined := new_byte_array (GCM_IV_LENGTH + length encryptedBytes) in
  combined ← call (arraycopy iv 0 combined 0 GCM_IV_LENGTH);
  combined ← call (arraycopy encryptedBytes 0 combined GCM_IV_LENGTH
                              (length encryptedBytes));
  let encryptedValue := Base64_encodeToString p combined in
  prefs_putString key encryptedValue.

(** [public void set(String key, String value)]; [None] is Java's
    [null]. *)
Definition set (key : string) (value : option string) : M unit :=
  try_catch
    (match value with
     | None => remove key
     | Some v => set_encrypt_and_put key v
     end)
    set_catches
    (fun e => Log_e TAG "Error storing value" e).

(** The statements of [get] after the blob was found. *)
Definition get_decode_and_decrypt (encryptedValue : string)
    : M (option string) :=
  combined ← call (Base64_decode p encryptedValue);
  if (length combined <? GCM_IV_LENGTH)%nat then ret None
  else
    let iv := new_byte_array GCM_IV_LENGTH in
    let encryptedBytes :=
      new_byte_array (length combined - GCM_IV_LENGTH) in
    iv ← call (arraycopy combined 0 iv 0 GCM_IV_LENGTH);
    encryptedBytes ← call (arraycopy combined GCM_IV_LENGTH
                                      encryptedBytes 0
                                      (length encryptedBytes));
    secretKey ← call (keyStore_getKey p MASTER_KEY_ALIAS);
    call (Cipher_getInstance p ENCRYPTION_TRANSFORMATION);;
    let spec := mkGCMParameterSpec GCM_TAG_LENGTH iv in
    cipher ← call (Cipher_init_DECRYPT p secretKey spec);
    decryptedBytes ← call (Cipher_doFinal p cipher encryptedBytes);
    ret (Some (newString decryptedBytes)).

(** [public String get(String key)] *)
Definition get (key : string) : M (option string) :=
  try_catch
    (encryptedValue ← prefs_getString key;
     match encryptedValue with
     | None => ret None
     | Some ev => get_decode_and_decrypt ev
     end)
    get_catches
    (fun e => Log_e TAG "Error retrieving value" e ;; ret None).

End Engine.
End SecureStorage.

Module SecureStoragePlugin.

(** [try { body; resolve } catch (Exception e) { call.reject(msg, e); }]:
    every exception class is an [Exception]. *)
Definition try_resolve {A} (body : M A) (data : A -> option JSObject)
    (message : string) (d : Device) : PluginResult * Device :=
  match body d with
  | (Normal a, d') => (resolve (data a), d')
  | (Throw e, d') => (reject message (Some e), d')
  end.

Section Bridge.
Variable p : Platform.

(** [@PluginMethod public void set(PluginCall call)] *)
Definition set (c : PluginCall) (d : Device) : PluginResult * Device :=
  match getString c "key" with
  | None => (reject "Key string must be provided" None, d)
  | Some key =>
      match getString c "value" with
      | None => (reject "Value string must be provided" None, d)
      | Some value =>
          try_resolve (SecureStorage.set p key (Some value))
                      (fun _ => None) "Error storing value" d
      end
  end.

(** [@PluginMethod public void get(PluginCall call)] *)
Definition get (c : PluginCall) (d : Device) : PluginResult * Device :=
  match getString c "key" with
  | None => (reject "Key string must be provided" None, d)
  | Some key =>
      try_resolve (SecureStorage.get p key)
                  (fun value => Some (JSValue value))
                  "Error retrieving value" d
  end.

(** [@PluginMethod public void remove(PluginCall call)] *)
Definition remove (c : PluginCall) (d : Device) : PluginResult * Device :=
  match getString c "key" with
  | None => (reject "Key string must be provided" None, d)
  | Some key =>
      try_resolve (SecureStorage.remove key) (fun _ => None)
                  "Error removing value" d
  end.

(** [@PluginMethod public void clear(PluginCall call)] *)
Definition clear (c : PluginCall) (d : Device) : PluginResult * Device :=
  try_resolve SecureStorage.clear (fun _ => None)
              "Error clearing storage" d.

(** [@PluginMethod public void keys(PluginCall call)] *)
Definition keys (c : PluginCall) (d : Device) : PluginResult * Device :=
  try_resolve SecureStorage.keys (fun ks => Some (JSKeys ks))
              "Error retrieving keys" d.

End Bridge.
End SecureStoragePlugin.

(** A platform in working order: the master key [masterKey] is in the
    KeyStore, the AES-GCM transformation is there, what the cipher sealed
    under an IV it opens under the same IV, nothing shorter than the
    16-byte tag is accepted for decryption (the cipher throws a
    [BadPaddingException], [AEADBadTagException] included, or an
    [IllegalBlockSizeException]), and Base64 decodes what it encoded. *)
Record PlatformOK (p : Platform) (masterKey : SecretKey) : Prop := {
  getKey_ok :
    keyStore_getKey p SecureStorage.MASTER_KEY_ALIAS = Normal (Some masterKey);
  getInstance_ok :
    Cipher_getInstance p SecureStorage.ENCRYPTION_TRANSFORMATION = Normal tt;
  seal_open_ok : ∀ (n : nat) (pt : list byte), ∃ c ct c',
    Cipher_init_ENCRYPT p (Some masterKey) n = Normal c
    ∧ length (getIV c) = SecureStorage.GCM_IV_LENGTH
    ∧ Cipher_doFinal p c pt = Normal ct
    ∧ Cipher_init_DECRYPT p (Some masterKey)
        (mkGCMParameterSpec SecureStorage.GCM_TAG_LENGTH (getIV c)) = Normal c'
    ∧ Cipher_doFinal p c' ct = Normal pt;
  open_short : ∀ (iv data : list byte),
    length iv = SecureStorage.GCM_IV_LENGTH →
    length data < 16 →
    ∃ c' e, Cipher_init_DECRYPT p (Some masterKey)
              (mkGCMParameterSpec SecureStorage.GCM_TAG_LENGTH iv) = Normal c'
            ∧ Cipher_doFinal p c' data = Throw e
            ∧ caught_by [BadPaddingException; IllegalBlockSizeException] e = true;
  Base64_ok : ∀ bs : list byte,
    Base64_decode p (Base64_encodeToString p bs) = Normal bs
}.

(** The device after [Log.e] wrote one more line. *)
Definition logged (d : Device) (msg : string) (e : exn) : Device :=
  mkDevice (sharedPreferences d)
           (logcat d ++ [mkLogEntry SecureStorage.TAG msg e]) (draws d).

(** How [get] ends once [cipher.doFinal] has completed with [r]. *)
Definition get_outcome (d : Device) (r : completion (list byte))
    : completion (option string) * Device :=
  match r with
  | Normal pt => (Normal (Some (newString pt)), d)
  | Throw e =>
      if caught_by SecureStorage.get_catches e
      then (Normal None, logged d "Error retrieving value" e)
      else (Throw e, d)
  end.

End Android.

(** ** iOS *)

Module IOS.

(** The [OSStatus] codes of Keychain Services that matter here. *)
Inductive OSStatus : Type :=
| errSecSuccess
| errSecItemNotFound
| errSecDuplicateItem
| errSecInteractionNotAllowed
| errSecNotAvailable
| errSecAllocate.

Global Instance OSStatus_eq_dec : EqDecision OSStatus.
Proof. solve_decision. Defined.

(** The generic-password items of the service [SecureStoragePlugin]:
    account name to value data. *)
Abbreviation Keychain := (gmap string (list byte)).

(** A Keychain call that does not get through: the device is locked, the
    Keychain is not available, or memory ran out. *)
Inductive Fault : Type :=
| InteractionNotAllowed
| NotAvailable
| Allocate.

Definition status_of (f : Fault) : OSStatus :=
  match f with
  | InteractionNotAllowed => errSecInteractionNotAllowed
  | NotAvailable => errSecNotAvailable
  | Allocate => errSecAllocate
  end.

(** How the Keychain answers during one engine call: [Some f] makes the
    corresponding Keychain function fail with the status of [f] and change
    nothing. *)
Record Faults : Type := mkFaults {
  onDelete : option Fault;
  onAdd : option Fault;
  onCopyMatching : option Fault
}.

Definition noFaults : Faults := mkFaults None None None.

(** [SecItemAdd] of an item for [account]. *)
Definition SecItemAdd (fault : option Fault) (account : string)
    (data : list byte) (kc : Keychain)
    : OSStatus * Keychain :=
  match fault with
  | Some f => (status_of f, kc)
  | None =>
      match kc !! account with
      | Some _ => (errSecDuplicateItem, kc)
      | None => (errSecSuccess, <[account := data]> kc)
      end
  end.

(** [SecItemDelete] with a query that names [account]. *)
Definition SecItemDelete (fault : option Fault) (account : string)
    (kc : Keychain) : OSStatus * Keychain :=
  match fault with
  | Some f => (status_of f, kc)
  | None =>
      match kc !! account with
      | Some _ => (errSecSuccess, delete account kc)
      | None => (errSecItemNotFound, kc)
      end
  end.

(** [SecItemDelete] with a query that names the service only. *)
Definition SecItemDelete_service (fault : option Fault)
    (kc : Keychain) : OSStatus * Keychain :=
  match fault with
  | Some f => (status_of f, kc)
  | None =>
      if decide (kc = ∅) then (errSecItemNotFound, kc) else (errSecSuccess, ∅)
  end.

(** [SecItemCopyMatching] with [kSecReturnData] and [kSecMatchLimitOne]. *)
Definition SecItemCopyMatching_data (fault : option Fault)
    (account : string) (kc : Keychain)
    : OSStatus * option (list byte) :=
  match fault with
  | Some f => (status_of f, None)
  | None =>
      match kc !! account with
      | Some data => (errSecSuccess, Some data)
      | None => (errSecItemNotFound, None)
      end
  end.

(** [SecItemCopyMatching] with [kSecReturnAttributes] and
    [kSecMatchLimitAll]: the account names of the items found. *)
Definition SecItemCopyMatching_accounts (fault : option Fault)
    (kc : Keychain) : OSStatus * list string :=
  match fault with
  | Some f => (status_of f, [])
  | None =>
      if decide (kc = ∅) then (errSecItemNotFound, [])
      else (errSecSuccess, (map_to_list kc).*1)
  end.

(** The UTF-8 bytes of a Swift string. *)
Definition utf8 (s : string) : list byte := String.list_byte_of_string s.

(** [value.data(using: .utf8)] and [String(data:encoding: .utf8)] *)
Definition data_utf8 (s : string) : option (list byte) :=
  Some (String.list_byte_of_string s).
Definition String_utf8 (data : list byte) : option string :=
  Some (String.string_of_list_byte data).

Module SecureStorage.
Section Engine.
Variable env : Faults.

(** [public func set(_ key: String, value: String) -> Bool] *)
Definition set (key value : string) (kc : Keychain)
    : bool * Keychain :=
  match data_utf8 value with
  | None => (false, kc)
  | Some valueData =>
      let '(_, kc1) := SecItemDelete (onDelete env) key kc in
      let '(status, kc2) := SecItemAdd (onAdd env) key valueData kc1 in
      (bool_decide (status = errSecSuccess), kc2)
  end.

(** [public func get(_ key: String) -> String?] *)
Definition get (key : string) (kc : Keychain)
    : option string :=
  match SecItemCopyMatching_data (onCopyMatching env) key kc with
  | (errSecSuccess, Some data) => String_utf8 data
  | _ => None
  end.

(** [public func remove(_ key: String) -> Bool] *)
Definition remove (key : string) (kc : Keychain)
    : bool * Keychain :=
  let '(status, kc1) := SecItemDelete (onDelete env) key kc in
  (bool_decide (status = errSecSuccess)
     || bool_decide (status = errSecItemNotFound), kc1).

(** [public func clear() -> Bool] *)
Definition clear (kc : Keychain)
    : bool * Keychain :=
  let '(status, kc1) := SecItemDelete_service (onDelete env) kc in
  (bool_decide (status = errSecSuccess)
     || bool_decide (status = errSecItemNotFound), kc1).

(** [public func keys() -> [String]] *)
Definition keys (kc : Keychain) : list string :=
  match SecItemCopyMatching_accounts (onCopyMatching env) kc with
  | (errSecSuccess, items) => items
  | _ => []
  end.

End Engine.
End SecureStorage.

Module SecureStoragePlugin.
Import Capacitor.
Section Bridge.
Variable env : Faults.

(** [@objc func set(_ call: CAPPluginCall)] *)
Definition set (c : PluginCall) (kc : Keychain) : PluginResult * Keychain :=
  match getString c "key" with
  | None => (reject "Key string must be provided" None, kc)
  | Some key =>
      match getString c "value" with
      | None => (reject "Value string must be provided" None, kc)
      | Some value =>
          let '(ok, kc') := SecureStorage.set env key value kc in
          if ok then (resolve None, kc')
          else (reject "Failed to store value" None, kc')
      end
  end.

(** [@objc func get(_ call: CAPPluginCall)] *)
Definition get (c : PluginCall) (kc : Keychain) : PluginResult * Keychain :=
  match getString c "key" with
  | None => (reject "Key string must be provided" None, kc)
  | Some key =>
      let value := SecureStorage.get env key kc in
      (resolve (Some (JSValue value)), kc)
  end.

(** [@objc func remove(_ call: CAPPluginCall)] *)
Definition remove (c : PluginCall) (kc : Keychain) : PluginResult * Keychain :=
  match getString c "key" with
  | None => (reject "Key string must be provided" None, kc)
  | Some key =>
      let '(ok, kc') := SecureStorage.remove env key kc in
      if ok then (resolve None, kc')
      else (reject "Failed to remove value" None, kc')
  end.

(** [@objc func clear(_ call: CAPPluginCall)] *)
Definition clear (c : PluginCall) (kc : Keychain) : PluginResult * Keychain :=
  let '(ok, kc') := SecureStorage.clear env kc in
  if ok then (resolve None, kc')
  else (reject "Failed to clear storage" None, kc').

(** [@objc func keys(_ call: CAPPluginCall)] *)
Definition keys (c : PluginCall) (kc : Keychain) : PluginResult * Keychain :=
  let keys := SecureStorage.keys env kc in
  (resolve (Some (JSKeys keys)), kc).

End Bridge.
End SecureStoragePlugin.

End IOS.

(** ** A software platform

    An instance of [Android.Platform] that can be run: Base64 after
    [android.util.Base64] with the [DEFAULT] flags (76-column lines ended by
    a line feed on output; on input, characters outside the alphabet are
    skipped and only wrong padding is an error), one software key under the
    master alias, and a small authenticated stream cipher standing in for
    AES-GCM (12-byte IV, 16-byte tag appended to the ciphertext). *)

Module Reference.
Import Java Capacitor Android.
Local Open Scope N_scope.

Definition byte_of_N (n : N) : byte :=
  default x00 (Byte.of_N (n mod 256)).

(** *** Base64 *)

Definition alphabet : list ascii :=
  String.list_ascii_of_string
    "ABCDEFGHIJKLMNOPQRSTUVWXYZabcdefghijklmnopqrstuvwxyz0123456789+/".

Definition LF : ascii := ascii_of_N 10.
Definition EQUALS : ascii := ascii_of_N 61.

Definition sextet_char (n : N) : ascii := nth (N.to_nat n) alphabet EQUALS.

Definition char_sextet (c : ascii) : option N :=
  let n := N_of_ascii c in
  if (65 <=? n) && (n <=? 90) then Some (n - 65)
  else if (97 <=? n) && (n <=? 122) then Some (n - 71)
  else if (48 <=? n) && (n <=? 57) then Some (n + 4)
  else if n =? 43 then Some 62
  else if n =? 47 then Some 63
  else None.

(** Three bytes make four characters; a tail of one or two bytes is padded
    with [=]. *)
Fixpoint encode_groups (bs : list byte) : list ascii :=
  match bs with
  | [] => []
  | [a] =>
      let v := Byte.to_N a * 16 in
      [sextet_char (v / 64); sextet_char (v mod 64); EQUALS; EQUALS]
  | [a; b] =>
      let v := (Byte.to_N a * 256 + Byte.to_N b) * 4 in
      [sextet_char (v / 4096); sextet_char (v / 64 mod 64);
       sextet_char (v mod 64); EQUALS]
  | a :: b :: c :: rest =>
      let v := Byte.to_N a * 65536 + Byte.to_N b * 256 + Byte.to_N c in
      sextet_char (v / 262144) :: sextet_char (v / 4096 mod 64)
        :: sextet_char (v / 64 mod 64) :: sextet_char (v mod 64)
        :: encode_groups rest
  end.

(** A line feed after every 76 characters and after a last shorter line. *)
Fixpoint wrap_lines (col : nat) (cs : list ascii) : list ascii :=
  match cs with
  | [] => if (col =? 0)%nat then [] else [LF]
  | c :: cs' =>
      if (col =? 75)%nat then c :: LF :: wrap_lines 0 cs'
      else c :: wrap_lines (S col) cs'
  end.

Definition encodeToString (bs : list byte) : string :=
  String.string_of_list_ascii (wrap_lines 0 (encode_groups bs)).

(** The decoder is a state machine over the characters: how many sextets
    of the current group were read and their value, or the padding seen. *)
Inductive decoder : Type :=
| D0
| D1 (v : N)
| D2 (v : N)
| D3 (v : N)
| DPad1
| DDone
| DBad.

Definition decode_step (s : decoder * list byte) (c : ascii)
    : decoder * list byte :=
  let '(st, out) := s in
  match char_sextet c with
  | Some d =>
      match st with
      | D0 => (D1 d, out)
      | D1 v => (D2 (v * 64 + d), out)
      | D2 v => (D3 (v * 64 + d), out)
      | D3 v =>
          let w := v * 64 + d in
          (D0, out ++ [byte_of_N (w / 65536); byte_of_N (w / 256);
                       byte_of_N w])
      | _ => (DBad, out)
      end
  | None =>
      if Ascii.eqb c EQUALS then
        match st with
        | D2 v => (DPad1, out ++ [byte_of_N (v / 16)])
        | D3 v => (DDone, out ++ [byte_of_N (v / 1024); byte_of_N (v / 4)])
        | DPad1 => (DDone, out)
        | _ => (DBad, out)
        end
      else s
  end.

Definition decode_finish (s : decoder * list byte) : completion (list byte) :=
  let '(st, out) := s in
  match st with
  | D0 | DDone => Normal out
  | D2 v => Normal (out ++ [byte_of_N (v / 16)])
  | D3 v => Normal (out ++ [byte_of_N (v / 1024); byte_of_N (v / 4)])
  | D1 _ | DPad1 | DBad => Throw IllegalArgumentException
  end.

Definition decode (s : string) : completion (list byte) :=
  decode_finish (fold_left decode_step (String.list_ascii_of_string s) (D0, [])).

(** *** The cipher *)

Definition xor_byte (a b : byte) : byte :=
  byte_of_N (N.lxor (Byte.to_N a) (Byte.to_N b)).

Definition sum_bytes (bs : list byte) : N :=
  fold_right (fun b acc => Byte.to_N b + acc)%N 0%N bs.

(** The key stream byte at position [i]. *)
Definition keystream (key : N) (iv : list byte) (i : nat) : byte :=
  byte_of_N (key + sum_bytes iv + 167 * N.of_nat i + 29).

Fixpoint xor_stream (key : N) (iv : list byte) (i : nat) (bs : list byte)
    : list byte :=
  match bs with
  | [] => []
  | b :: bs' => xor_byte b (keystream key iv i) :: xor_stream key iv (S i) bs'
  end.

(** A keyed checksum of the IV and the ciphertext, 128 bits. *)
Definition mac (key : N) (bs : list byte) : N :=
  fold_left (fun acc b => ((acc * 257 + Byte.to_N b + key) mod 2 ^ 128)%N)
            bs key.

Definition tag_bytes (m : N) : list byte :=
  map (fun i => byte_of_N (m / 256 ^ N.of_nat i)) (seq 0 16).

Definition seal (key : N) (iv pt : list byte) : list byte :=
  let ct := xor_stream key iv 0 pt in
  ct ++ tag_bytes (mac key (iv ++ ct)).

Definition open (key : N) (iv data : list byte) : completion (list byte) :=
  if (length data <? 16)%nat then Throw AEADBadTagException
  else
    let ct := take (length data - 16)%nat data in
    let tag := drop (length data - 16)%nat data in
    if bool_decide (tag = tag_bytes (mac key (iv ++ ct)))
    then Normal (xor_stream key iv 0 ct)
    else Throw AEADBadTagException.

(** The IV of the [n]-th draw. *)
Definition iv_of_draw (n : nat) : list byte :=
  map (fun i => byte_of_N (N.of_nat n / 256 ^ N.of_nat i)) (seq 0 12).

Definition master : SecretKey := 90210%N.

Definition platform : Platform :=
  {| keyStore_getKey alias :=
       if decide (alias = SecureStorage.MASTER_KEY_ALIAS)
       then Normal (Some master) else Normal None;
     Cipher_getInstance transformation :=
       if decide (transformation = "AES/GCM/NoPadding")
       then Normal tt else Throw NoSuchAlgorithmException;
     Cipher_init_ENCRYPT key n :=
       match key with
       | Some k => Normal (mkCipher ENCRYPT_MODE k (iv_of_draw n))
       | None => Throw InvalidKeyException
       end;
     Cipher_init_DECRYPT key spec :=
       match key with
       | Some k =>
           if decide (tLen spec = 128%nat ∧ length (specIV spec) = 12%nat)
           then Normal (mkCipher DECRYPT_MODE k (specIV spec))
           else Throw InvalidAlgorithmParameterException
       | None => Throw InvalidKeyException
       end;
     Cipher_doFinal c data :=
       match cipherMode c with
       | ENCRYPT_MODE => Normal (seal (cipherKey c) (cipherIV c) data)
       | DECRYPT_MODE => open (cipherKey c) (cipherIV c) data
       end;
     Base64_encodeToString := encodeToString;
     Base64_decode := decode |}.

(** The same device after its master key was lost (or was never
    generated): the alias is absent from the KeyStore. *)
Definition keyless : Platform :=
  {| keyStore_getKey alias := Normal None;
     Cipher_getInstance := Cipher_getInstance platform;
     Cipher_init_ENCRYPT := Cipher_init_ENCRYPT platform;
     Cipher_init_DECRYPT := Cipher_init_DECRYPT platform;
     Cipher_doFinal := Cipher_doFinal platform;
     Base64_encodeToString := encodeToString;
     Base64_decode := decode |}.

Definition fresh : Device := mkDevice ∅ [] 0%nat.

(** A device whose entry ["token"] was written by [set("token", "abc123")]
    at the first draw, and the same device after the first character of
    the ciphertext, [H], was changed to [I]. *)
Definition written : Device :=
  mkDevice {["token" := "AAAAAAAAAAAAAAAAHkSuRSnxtQKFdbdW1bY6zewVqvGeVg=="]}
           [] 1%nat.

Definition tampered : Device :=
  mkDevice {["token" := "AAAAAAAAAAAAAAAAIkSuRSnxtQKFdbdW1bY6zewVqvGeVg=="]}
           [] 1%nat.

(** A device whose entry ["token"] decodes to the five bytes 0, 1, 2, 3, 4,
    and one whose entry decodes to twenty zero bytes. *)
Definition truncated : Device :=
  mkDevice {["token" := "AAECAwQ="]} [] 1%nat.

Definition truncated20 : Device :=
  mkDevice {["token" := "AAAAAAAAAAAAAAAAAAAAAAAAAAA="]} [] 1%nat.

End Reference.

(** ** Android: construction of the engine

    The constructor of [SecureStorage], [generateMasterKey] and
    [SecureStoragePlugin.load].  The KeyStore and KeyGenerator services are
    a record of operations again; the contents of the AndroidKeyStore, alias
    to key, are state. *)

Module AndroidInit.
Import Java Android.

(** The exceptions of the constructor: those of [Java.exn] and three more
    checked classes. *)
Inductive throwable : Type :=
| Thrown (e : exn)
| CertificateException
| IOException
| NoSuchProviderException.

Global Instance throwable_eq_dec : EqDecision throwable.
Proof. solve_decision. Defined.

(** A multi-catch clause over [throwable]. *)
Definition catches (classes : list throwable) (t : throwable) : bool :=
  match t with
  | Thrown e =>
      existsb (fun c => match c with
                        | Thrown c' => instanceOf e c'
                        | _ => false
                        end) classes
  | _ => bool_decide (t ∈ classes)
  end.

Inductive outcome (A : Type) : Type :=
| Done (a : A)
| Raise (t : throwable).
Global Arguments Done {A} a.
Global Arguments Raise {A} t.

(** [new KeyGenParameterSpec.Builder(alias, purposes).setBlockModes(..)
    .setEncryptionPaddings(..).setRandomizedEncryptionRequired(..).build()] *)
Record KeyGenParameterSpec : Type := mkKeyGenParameterSpec {
  keystoreAlias : string;
  purposes : N;
  blockModes : string;
  encryptionPaddings : string;
  randomizedEncryptionRequired : bool
}.

Definition PURPOSE_ENCRYPT : N := 1%N.
Definition PURPOSE_DECRYPT : N := 2%N.
Definition KEYSTORE_PROVIDER : string := "AndroidKeyStore".
Definition SHARED_PREFS_NAME : string := "SECURE_STORAGE_PREFS".

(** The services the constructor calls.  [KeyGenerator_generateKey] sees the
    contents of the KeyStore and hands back the new key. *)
Record KeyServices : Type := mkKeyServices {
  KeyStore_getInstance : string -> outcome unit;
  KeyStore_load : outcome unit;
  KeyGenerator_getInstance : string -> string -> outcome unit;
  KeyGenerator_init : KeyGenParameterSpec -> outcome unit;
  KeyGenerator_generateKey :
    KeyGenParameterSpec -> gmap string SecretKey -> outcome SecretKey
}.

(** The field [keyStore]: null, or a KeyStore object that was loaded or
    not. *)
Inductive KeyStoreField : Type :=
| ksNull
| ksInstance (loaded : bool).

(** The fields of the new object, the contents of the AndroidKeyStore and
    the lines the constructor logged.  [prefsOpened] tells whether the field
    [sharedPreferences] was assigned. *)
Record Instance : Type := mkInstance {
  keyStore : KeyStoreField;
  prefsOpened : bool;
  entries : gmap string SecretKey;
  initLog : list (string * string * throwable)
}.

(** The state a constructor call starts from: both fields null. *)
Definition start (ks : gmap string SecretKey)
    (log : list (string * string * throwable)) : Instance :=
  mkInstance ksNull false ks log.

Definition I (A : Type) : Type := Instance -> outcome A * Instance.

Definition iret {A} (a : A) : I A := fun i => (Done a, i).

Definition ibind {A B} (m : I A) (k : A -> I B) : I B :=
  fun i =>
    match m i with
    | (Done a, i') => k a i'
    | (Raise t, i') => (Raise t, i')
    end.

Global Instance I_ret : MRet I := @iret.
Global Instance I_bind : MBind I := fun A B k m => ibind m k.

Definition service {A} (o : outcome A) : I A := fun i => (o, i).

Definition try_catch_init {A} (body : I A) (classes : list throwable)
    (handler : throwable -> I A) : I A :=
  fun i =>
    match body i with
    | (Done a, i') => (Done a, i')
    | (Raise t, i') =>
        if catches classes t then handler t i' else (Raise t, i')
    end.

(** [Log.e(TAG, msg, e)] *)
Definition Log_e_init (msg : string) (t : throwable) : I unit :=
  fun i => (Done tt,
            mkInstance (keyStore i) (prefsOpened i) (entries i)
                       (initLog i ++ [(SecureStorage.TAG, msg, t)])).

(** [keyStore = ...], with the state of the object assigned. *)
Definition assign_keyStore (f : KeyStoreField) : I unit :=
  fun i => (Done tt, mkInstance f (prefsOpened i) (entries i) (initLog i)).

(** [sharedPreferences = context.getSharedPreferences(name, MODE_PRIVATE)] *)
Definition assign_sharedPreferences (name : string) : I unit :=
  fun i => (Done tt, mkInstance (keyStore i) true (entries i) (initLog i)).

(** [keyStore.containsAlias(alias)]: a KeyStore that was not loaded throws. *)
Definition containsAlias (alias : string) : I bool :=
  fun i =>
    match keyStore i with
    | ksNull => (Raise (Thrown NullPointerException), i)
    | ksInstance false => (Raise (Thrown KeyStoreException), i)
    | ksInstance true => (Done (bool_decide (is_Some (entries i !! alias))), i)
    end.

(** [keyGenerator.generateKey()]: the key goes into the KeyStore under the
    alias of the spec. *)
Definition generateKey (s : KeyServices) (spec : KeyGenParameterSpec)
    : I unit :=
  fun i =>
    match KeyGenerator_generateKey s spec (entries i) with
    | Done k =>
        (Done tt,
         mkInstance (keyStore i) (prefsOpened i)
                    (<[keystoreAlias spec := k]> (entries i)) (initLog i))
    | Raise t => (Raise t, i)
    end.

Module SecureStorage.
Import Android.SecureStorage.
Section Construction.
Variable s : KeyServices.

(** [private void generateMasterKey()] *)
Definition generateMasterKey : I unit :=
  try_catch_init
    (service (KeyGenerator_getInstance s ENCRYPTION_ALGORITHM
                                       KEYSTORE_PROVIDER);;
     let keyGenParameterSpec :=
       mkKeyGenParameterSpec MASTER_KEY_ALIAS
         (N.lor PURPOSE_ENCRYPT PURPOSE_DECRYPT)
         ENCRYPTION_BLOCK_MODE ENCRYPTION_PADDING true in
     service (KeyGenerator_init s keyGenParameterSpec);;
     generateKey s keyGenParameterSpec)
    [Thrown NoSuchAlgorithmException; NoSuchProviderException;
     Thrown InvalidAlgorithmParameterException]
    (fun e => Log_e_init "Error generating master key" e).

(** [public SecureStorage(Context context)] *)
Definition new : I unit :=
  try_catch_init
    (service (KeyStore_getInstance s KEYSTORE_PROVIDER);;
     assign_keyStore (ksInstance false);;
     service (KeyStore_load s);;
     assign_keyStore (ksInstance true);;
     assign_sharedPreferences SHARED_PREFS_NAME;;
     present ← containsAlias MASTER_KEY_ALIAS;
     if negb present then generateMasterKey else iret tt)
    [Thrown KeyStoreException; CertificateException;
     Thrown NoSuchAlgorithmException; IOException]
    (fun e => Log_e_init "Error initializing SecureStorage" e).

End Construction.
End SecureStorage.

Module SecureStoragePlugin.

(** [public void load()]: [implementation = new SecureStorage(getContext())] *)
Definition load (s : KeyServices) : I unit := SecureStorage.new s.

End SecureStoragePlugin.

(** The platform of the engine reads its keys from the KeyStore contents
    [ks], and its cipher refuses a null key. *)
Definition reads_keystore (p : Platform) (ks : gmap string SecretKey) : Prop :=
  (∀ alias, keyStore_getKey p alias = Normal (ks !! alias))
  ∧ Cipher_getInstance p Android.SecureStorage.ENCRYPTION_TRANSFORMATION
    = Normal tt
  ∧ (∀ n, Cipher_init_ENCRYPT p None n = Throw InvalidKeyException).

End AndroidInit.

(** ** Web

    [SecureStorageWeb] keeps the values in [window.localStorage], under item
    names that start with a prefix. *)

Module Web.

(** [window.localStorage]: item name to value. *)
Abbreviation Storage := (gmap string string).

Definition setItem (name value : string) (ls : Storage) : Storage :=
  <[name := value]> ls.
Definition getItem (name : string) (ls : Storage) : option string :=
  ls !! name.
Definition removeItem (name : string) (ls : Storage) : Storage :=
  delete name ls.

(** [Object.keys(localStorage)], in the order the storage yields them. *)
Definition Object_keys (ls : Storage) : list string := (map_to_list ls).*1.

(** [s.startsWith(p)] *)
Definition startsWith (s p : string) : bool := String.prefix p s.

(** [s.substring(n)]: from position [n] to the end. *)
Definition substring (s : string) (n : nat) : string :=
  String.substring n (String.length s - n) s.

Module SecureStorageWeb.

Definition storagePrefix : string := "cap_secureStorage_".

(** [private getKeyName(key: string): string] *)
Definition getKeyName (key : string) : string := storagePrefix +:+ key.

(** [async set(options: { key: string; value: string }): Promise<void>] *)
Definition set (key value : string) (ls : Storage) : Storage :=
  setItem (getKeyName key) value ls.

(** [async get(options: { key: string }): Promise<{ value: string | null }>] *)
Definition get (key : string) (ls : Storage) : option string :=
  getItem (getKeyName key) ls.

(** [async remove(options: { key: string }): Promise<void>] *)
Definition remove (key : string) (ls : Storage) : Storage :=
  removeItem (getKeyName key) ls.

(** [async clear(): Promise<void>] *)
Definition clear (ls : Storage) : Storage :=
  let keysToRemove :=
    List.filter (fun key => startsWith key storagePrefix) (Object_keys ls) in
  fold_left (fun ls' key => removeItem key ls') keysToRemove ls.

(** [async keys(): Promise<{ keys: string[] }>] *)
Definition keys (ls : Storage) : list string :=
  let allKeys :=
    List.map (fun key => substring key (String.length storagePrefix))
      (List.filter (fun key => startsWith key storagePrefix) (Object_keys ls)) in
  allKeys.

End SecureStorageWeb.

End Web.

(** ** Sample services

    Key services in working order, key services with a defect, and a cipher
    provider whose IVs are too short. *)

Module Samples.
Import Java Android AndroidInit.

(** Every call succeeds; the generator hands out [Reference.master]. *)
Definition services : KeyServices :=
  {| KeyStore_getInstance _ := Done tt;
     KeyStore_load := Done tt;
     KeyGenerator_getInstance _ _ := Done tt;
     KeyGenerator_init _ := Done tt;
     KeyGenerator_generateKey _ _ := Done Reference.master |}.

(** The provider has no key generator. *)
Definition no_generator : KeyServices :=
  {| KeyStore_getInstance _ := Done tt;
     KeyStore_load := Done tt;
     KeyGenerator_getInstance _ _ := Raise NoSuchProviderException;
     KeyGenerator_init _ := Done tt;
     KeyGenerator_generateKey _ _ := Done Reference.master |}.

(** The KeyStore cannot be loaded. *)
Definition no_keystore : KeyServices :=
  {| KeyStore_getInstance _ := Done tt;
     KeyStore_load := Raise IOException;
     KeyGenerator_getInstance _ _ := Done tt;
     KeyGenerator_init _ := Done tt;
     KeyGenerator_generateKey _ _ := Done Reference.master |}.

(** [Reference.platform] with IVs of 8 bytes. *)
Definition short_iv : Platform :=
  {| keyStore_getKey := keyStore_getKey Reference.platform;
     Cipher_getInstance := Cipher_getInstance Reference.platform;
     Cipher_init_ENCRYPT key n :=
       match key with
       | Some k => Normal (mkCipher ENCRYPT_MODE k (replicate 8 x00))
       | None => Throw InvalidKeyException
       end;
     Cipher_init_DECRYPT := Cipher_init_DECRYPT Reference.platform;
     Cipher_doFinal := Cipher_doFinal Reference.platform;
     Base64_encodeToString := Reference.encodeToString;
     Base64_decode := Reference.decode |}.

End Samples.

(** * Properties *)

Import Java Capacitor Android.
Local Open Scope nat_scope.

(** ** Arrays *)

Lemma arraycopy_into_fresh (src : list byte) (srcPos n : nat) :
  srcPos + n ≤ length src →
  arraycopy src srcPos (new_byte_array n) 0 n = Normal (take n (drop srcPos src)).
Proof.
  intros Hle. unfold arraycopy, new_byte_array.
  rewrite length_replicate.
  rewrite (proj2 (Nat.leb_le _ _)) by done.
  rewrite (proj2 (Nat.leb_le _ _)) by (simpl; lia).
  simpl. rewrite drop_replicate, Nat.sub_diag. simpl.
  by rewrite app_nil_r.
Qed.

(** The two copies of [set] lay the first 12 bytes of the IV before the
    cipher output. *)
Lemma arraycopy_combined (iv ct : list byte) :
  12 ≤ length iv →
  ∃ c1, arraycopy iv 0
          (new_byte_array (SecureStorage.GCM_IV_LENGTH + length ct)) 0
          SecureStorage.GCM_IV_LENGTH = Normal c1
        ∧ arraycopy ct 0 c1 SecureStorage.GCM_IV_LENGTH (length ct)
          = Normal (take 12 iv ++ ct).
Proof.
  intros Hiv. unfold SecureStorage.GCM_IV_LENGTH.
  exists (take 12 iv ++ replicate (length ct) x00). split.
  - unfold arraycopy, new_byte_array. rewrite length_replicate.
    rewrite (proj2 (Nat.leb_le _ _)) by (simpl; lia).
    rewrite (proj2 (Nat.leb_le _ _)) by (simpl; lia).
    simpl andb. cbv iota. rewrite take_0, drop_0.
    change (0 + 12) with 12. rewrite drop_replicate.
    replace (12 + length ct - 12) with (length ct) by lia. done.
  - unfold arraycopy.
    assert (Hlen : length (take 12 iv) = 12) by (rewrite length_take; lia).
    rewrite length_app, length_replicate, Hlen.
    rewrite (proj2 (Nat.leb_le _ _)) by (simpl; lia).
    rewrite (proj2 (Nat.leb_le _ _)) by (simpl; lia).
    simpl andb. cbv iota. rewrite drop_0.
    rewrite take_app_length' by done.
    rewrite firstn_all.
    rewrite drop_app_add' by done.
    rewrite drop_replicate, Nat.sub_diag. simpl.
    by rewrite app_nil_r.
Qed.

(** ** The engine of Android, step by step *)

Ltac unfold_M :=
  unfold mbind, M_bind, mret, M_ret, bind, call, ret, try_catch, Log_e,
    prefs_getString, prefs_putString, prefs_remove, prefs_clear, prefs_keySet,
    next_draw in *.

Lemma length_new_byte_array (n : nat) : length (new_byte_array n) = n.
Proof. apply length_replicate. Qed.

Lemma set_stores (p : Platform) (k v : string) (d : Device) sk c ct :
  keyStore_getKey p SecureStorage.MASTER_KEY_ALIAS = Normal sk →
  Cipher_getInstance p SecureStorage.ENCRYPTION_TRANSFORMATION = Normal tt →
  Cipher_init_ENCRYPT p sk (draws d) = Normal c →
  12 ≤ length (getIV c) →
  Cipher_doFinal p c (getBytes v) = Normal ct →
  SecureStorage.set p k (Some v) d
  = (Normal tt,
     mkDevice (<[k := Base64_encodeToString p (take 12 (getIV c) ++ ct)]>
                 (sharedPreferences d))
              (logcat d) (S (draws d))).
Proof.
  intros Hkey Hinst Hinit Hiv Hfin.
  destruct (arraycopy_combined (getIV c) ct Hiv) as (c1 & Hc1 & Hc2).
  unfold SecureStorage.set, SecureStorage.set_encrypt_and_put. unfold_M.
  rewrite Hkey, Hinst. cbv beta iota zeta. rewrite Hinit, Hfin. cbv beta iota zeta.
  rewrite Hc1. cbv beta iota. rewrite Hc2. done.
Qed.

Lemma get_absent (p : Platform) (k : string) (d : Device) :
  sharedPreferences d !! k = None →
  SecureStorage.get p k d = (Normal None, d).
Proof.
  intros Hk. unfold SecureStorage.get. unfold_M. by rewrite Hk.
Qed.

Lemma get_short (p : Platform) (k blob : string) (d : Device) combined :
  sharedPreferences d !! k = Some blob →
  Base64_decode p blob = Normal combined →
  length combined < 12 →
  SecureStorage.get p k d = (Normal None, d).
Proof.
  intros Hk Hdec Hlen. unfold SecureStorage.get, SecureStorage.get_decode_and_decrypt. unfold_M.
  rewrite Hk, Hdec. unfold SecureStorage.GCM_IV_LENGTH.
  by rewrite (proj2 (Nat.ltb_lt _ _)) by done.
Qed.

Lemma get_decrypts (p : Platform) (k blob : string) (d : Device) combined sk c' :
  sharedPreferences d !! k = Some blob →
  Base64_decode p blob = Normal combined →
  12 ≤ length combined →
  keyStore_getKey p SecureStorage.MASTER_KEY_ALIAS = Normal sk →
  Cipher_getInstance p SecureStorage.ENCRYPTION_TRANSFORMATION = Normal tt →
  Cipher_init_DECRYPT p sk (mkGCMParameterSpec 128 (take 12 combined))
    = Normal c' →
  SecureStorage.get p k d = get_outcome d (Cipher_doFinal p c' (drop 12 combined)).
Proof.
  intros Hk Hdec Hlen Hkey Hinst Hinit.
  unfold SecureStorage.get, SecureStorage.get_decode_and_decrypt. unfold_M.
  rewrite Hk, Hdec. unfold SecureStorage.GCM_IV_LENGTH, SecureStorage.GCM_TAG_LENGTH.
  rewrite (proj2 (Nat.ltb_ge _ _)) by done.
  rewrite arraycopy_into_fresh by (simpl; lia).
  rewrite length_new_byte_array.
  rewrite arraycopy_into_fresh by lia.
  rewrite drop_0, Hkey, Hinst. simpl. rewrite Hinit.
  rewrite take_ge by (rewrite length_drop; lia).
  destruct (Cipher_doFinal p c' (drop 12 combined)) as [pt|e]; simpl; [done|].
  unfold logged. by destruct (caught_by SecureStorage.get_catches e).
Qed.

(** ** The software platform is in working order *)

Ltac Zify.zify_post_hook ::= Z.to_euclidean_division_equations.

Section Base64.
Import Reference.
Local Open Scope N_scope.

Lemma byte_of_N_eq (n : N) (b : byte) :
  n mod 256 = Byte.to_N b → byte_of_N n = b.
Proof.
  intros H. unfold byte_of_N. rewrite H, Byte.of_to_N. done.
Qed.

Lemma to_N_lt (b : byte) : Byte.to_N b < 256.
Proof. pose proof (Byte.to_N_bounded b). lia. Qed.

Lemma byte_of_to_N (b : byte) : byte_of_N (Byte.to_N b) = b.
Proof.
  apply byte_of_N_eq, N.mod_small, to_N_lt.
Qed.

Lemma char_sextet_sextet_char (n : N) :
  n < 64 → char_sextet (sextet_char n) = Some n.
Proof.
  intros Hn. rewrite <- (N2Nat.id n).
  assert (Hm : (N.to_nat n < 64)%nat) by lia.
  generalize dependent (N.to_nat n). clear. intros m Hm.
  do 64 (destruct m as [|m]; [vm_compute; reflexivity|]).
  lia.
Qed.

Lemma decode_step_skip (s : decoder * list byte) (c : ascii) :
  char_sextet c = None → Ascii.eqb c EQUALS = false → decode_step s c = s.
Proof.
  intros H1 H2. unfold decode_step. destruct s as [st out]. by rewrite H1, H2.
Qed.

Lemma fold_wrap_lines (cs : list ascii) (col : nat) (s : decoder * list byte) :
  fold_left decode_step (wrap_lines col cs) s = fold_left decode_step cs s.
Proof.
  revert col s. induction cs as [|c cs IH]; intros col s; simpl.
  - destruct (col =? 0)%nat; [done|]. simpl. by apply decode_step_skip.
  - destruct (col =? 75)%nat; simpl.
    + rewrite (decode_step_skip _ LF) by done. apply IH.
    + apply IH.
Qed.

Lemma decode_step_sextet (st : decoder) (out : list byte) (n : N) :
  n < 64 →
  decode_step (st, out) (sextet_char n)
  = match st with
    | D0 => (D1 n, out)
    | D1 v => (D2 (v * 64 + n), out)
    | D2 v => (D3 (v * 64 + n), out)
    | D3 v =>
        let w := v * 64 + n in
        (D0, out ++ [byte_of_N (w / 65536); byte_of_N (w / 256); byte_of_N w])
    | _ => (DBad, out)
    end.
Proof.
  intros Hn. unfold decode_step. by rewrite char_sextet_sextet_char.
Qed.

Lemma decode_step_EQUALS (st : decoder) (out : list byte) :
  decode_step (st, out) EQUALS
  = match st with
    | D2 v => (DPad1, out ++ [byte_of_N (v / 16)])
    | D3 v => (DDone, out ++ [byte_of_N (v / 1024); byte_of_N (v / 4)])
    | DPad1 => (DDone, out)
    | _ => (DBad, out)
    end.
Proof. reflexivity. Qed.

Lemma decode_group3 (a b c : byte) (out : list byte) (rest : list ascii) :
  let v := Byte.to_N a * 65536 + Byte.to_N b * 256 + Byte.to_N c in
  fold_left decode_step
    (sextet_char (v / 262144) :: sextet_char (v / 4096 mod 64)
       :: sextet_char (v / 64 mod 64) :: sextet_char (v mod 64) :: rest)
    (D0, out)
  = fold_left decode_step rest (D0, out ++ [a; b; c]).
Proof.
  intros v. pose proof (to_N_lt a). pose proof (to_N_lt b).
  pose proof (to_N_lt c).
  cbn [fold_left].
  rewrite !decode_step_sextet by (subst v; lia). cbv zeta.
  do 3 f_equal.
  f_equal; [|f_equal; [|f_equal]]; apply byte_of_N_eq; subst v; lia.
Qed.

Lemma decode_tail1 (a : byte) (out : list byte) :
  let v := Byte.to_N a * 16 in
  fold_left decode_step
    [sextet_char (v / 64); sextet_char (v mod 64); EQUALS; EQUALS] (D0, out)
  = (DDone, out ++ [a]).
Proof.
  intros v. pose proof (to_N_lt a).
  cbn [fold_left].
  rewrite !decode_step_sextet by (subst v; lia).
  rewrite !decode_step_EQUALS.
  do 3 f_equal. apply byte_of_N_eq. subst v; lia.
Qed.

Lemma decode_tail2 (a b : byte) (out : list byte) :
  let v := (Byte.to_N a * 256 + Byte.to_N b) * 4 in
  fold_left decode_step
    [sextet_char (v / 4096); sextet_char (v / 64 mod 64);
     sextet_char (v mod 64); EQUALS] (D0, out)
  = (DDone, out ++ [a; b]).
Proof.
  intros v. pose proof (to_N_lt a). pose proof (to_N_lt b).
  cbn [fold_left].
  rewrite !decode_step_sextet by (subst v; lia).
  rewrite !decode_step_EQUALS.
  do 2 f_equal.
  f_equal; [|f_equal]; apply byte_of_N_eq; subst v; lia.
Qed.

Lemma decode_encode_groups (n : nat) (bs out : list byte) :
  (length bs ≤ n)%nat →
  decode_finish (fold_left decode_step (encode_groups bs) (D0, out))
  = Normal (out ++ bs).
Proof.
  revert bs out. induction n as [|n IH]; intros bs out Hlen.
  - destruct bs; [|simpl in Hlen; lia]. simpl. by rewrite app_nil_r.
  - destruct bs as [|a [|b [|c rest]]].
    + simpl. by rewrite app_nil_r.
    + unfold encode_groups. by rewrite decode_tail1.
    + unfold encode_groups. by rewrite decode_tail2.
    + change (encode_groups (a :: b :: c :: rest)) with
        (let v := Byte.to_N a * 65536 + Byte.to_N b * 256 + Byte.to_N c in
         sextet_char (v / 262144) :: sextet_char (v / 4096 mod 64)
           :: sextet_char (v / 64 mod 64) :: sextet_char (v mod 64)
           :: encode_groups rest).
      cbv zeta. rewrite decode_group3. cbv zeta.
      rewrite IH by (simpl in Hlen; lia).
      by rewrite <- app_assoc.
Qed.

Lemma decode_encodeToString (bs : list byte) :
  decode (encodeToString bs) = Normal bs.
Proof.
  unfold decode, encodeToString.
  rewrite String.list_ascii_of_string_of_list_ascii, fold_wrap_lines.
  by rewrite (decode_encode_groups (length bs) bs []).
Qed.

Lemma xor_byte_involutive (a k : byte) : xor_byte (xor_byte a k) k = a.
Proof.
  set (L := map (fun n => byte_of_N (N.of_nat n)) (seq 0 256)).
  assert (Hall : ∀ b : byte, b ∈ L).
  { intros b. apply list_elem_of_fmap. exists (N.to_nat (Byte.to_N b)). split.
    - by rewrite N2Nat.id, byte_of_to_N.
    - apply elem_of_seq. pose proof (to_N_lt b). lia. }
  assert (Hchk : forallb (fun a => forallb (fun k =>
            bool_decide (xor_byte (xor_byte a k) k = a)) L) L = true)
    by (vm_compute; reflexivity).
  rewrite forallb_forall in Hchk.
  specialize (Hchk a (proj1 (list_elem_of_In _ _) (Hall a))).
  rewrite forallb_forall in Hchk.
  specialize (Hchk k (proj1 (list_elem_of_In _ _) (Hall k))).
  by apply bool_decide_eq_true in Hchk.
Qed.

Lemma xor_stream_involutive (key : N) (iv bs : list byte) (i : nat) :
  xor_stream key iv i (xor_stream key iv i bs) = bs.
Proof.
  revert i. induction bs as [|b bs IH]; intros i; simpl; [done|].
  by rewrite xor_byte_involutive, IH.
Qed.

Lemma length_xor_stream (key : N) (iv bs : list byte) (i : nat) :
  length (xor_stream key iv i bs) = length bs.
Proof.
  revert i. induction bs as [|b bs IH]; intros i; simpl; [done|].
  by rewrite IH.
Qed.

Lemma length_tag_bytes (m : N) : length (tag_bytes m) = 16%nat.
Proof. unfold tag_bytes. by rewrite length_map, length_seq. Qed.

Lemma open_seal (key : N) (iv pt : list byte) :
  open key iv (seal key iv pt) = Normal pt.
Proof.
  unfold open, seal.
  set (ct := xor_stream key iv 0 pt).
  set (tag := tag_bytes (mac key (iv ++ ct))).
  assert (Htag : length tag = 16%nat) by apply length_tag_bytes.
  rewrite length_app, Htag.
  rewrite (proj2 (Nat.ltb_ge _ _)) by lia.
  replace (length ct + 16 - 16)%nat with (length ct) by lia.
  rewrite take_app_length, drop_app_length.
  fold tag. rewrite bool_decide_eq_true_2 by done.
  unfold ct. by rewrite xor_stream_involutive.
Qed.

Lemma open_too_short (key : N) (iv data : list byte) :
  (length data < 16)%nat → open key iv data = Throw AEADBadTagException.
Proof.
  intros H. unfold open. by rewrite (proj2 (Nat.ltb_lt _ _)) by done.
Qed.

Lemma length_iv_of_draw (n : nat) : length (iv_of_draw n) = 12%nat.
Proof. unfold iv_of_draw. by rewrite length_map, length_seq. Qed.

Lemma platform_ok : PlatformOK platform master.
Proof.
  split.
  - reflexivity.
  - reflexivity.
  - intros n pt.
    exists (mkCipher ENCRYPT_MODE master (iv_of_draw n)),
           (seal master (iv_of_draw n) pt),
           (mkCipher DECRYPT_MODE master (iv_of_draw n)).
    split; [reflexivity|]. split; [apply length_iv_of_draw|].
    split; [reflexivity|]. split.
    + cbn [platform Cipher_init_DECRYPT getIV cipherIV tLen specIV].
      rewrite decide_True; [done|].
      split; [done|apply length_iv_of_draw].
    + apply open_seal.
  - intros iv data Hiv Hdata.
    exists (mkCipher DECRYPT_MODE master iv), AEADBadTagException.
    split; [|split].
    + cbn [platform Cipher_init_DECRYPT tLen specIV].
      by rewrite decide_True.
    + by apply open_too_short.
    + reflexivity.
  - apply decode_encodeToString.
Qed.
End Base64.
(** ** Writes: what [set] and [remove] do to the store *)

Ltac destruct_matches := repeat case_match; simplify_eq/=.

Lemma set_value_cases (p : Platform) (k v : string) (d : Device) :
  ∃ r d', SecureStorage.set p k (Some v) d = (r, d')
    ∧ (sharedPreferences d' = sharedPreferences d
       ∨ (r = Normal tt
          ∧ ∃ blob, sharedPreferences d' = <[k := blob]> (sharedPreferences d))).
Proof.
  unfold SecureStorage.set, SecureStorage.set_encrypt_and_put. unfold_M.
  destruct_matches; (do 2 eexists; split; [reflexivity|]; simpl; eauto).
Qed.

Lemma get_keeps_store (p : Platform) (k : string) (d : Device) :
  sharedPreferences (SecureStorage.get p k d).2 = sharedPreferences d
  ∧ draws (SecureStorage.get p k d).2 = draws d.
Proof.
  unfold SecureStorage.get, SecureStorage.get_decode_and_decrypt. unfold_M.
  destruct_matches; eauto.
Qed.

Lemma device_eta (d : Device) :
  mkDevice (sharedPreferences d) (logcat d) (draws d) = d.
Proof. by destruct d. Qed.

(** C5.  On Android, [set(key, null)] is [remove(key)]: the same outcome
    and the same resulting state, which is the state before with the entry
    of [key] deleted; the log and the count of IVs drawn stay as they were,
    so nothing was encrypted or written. *)
Theorem set_null_is_remove (p : Platform) (k : string) (d : Device) :
  SecureStorage.set p k None d = SecureStorage.remove k d
  ∧ SecureStorage.remove k d
    = (Normal tt,
       mkDevice (delete k (sharedPreferences d)) (logcat d) (draws d)).
Proof. split; reflexivity. Qed.

(** C7.  Removing a key that is not stored succeeds and leaves the store as it
    was, on Android and (when the Keychain answers) on iOS; and a second
    [remove] of the same key changes nothing after the first, from any
    state [d0], [kc0]. *)
Theorem remove_absent_key_is_noop (k : string) (d d0 : Device) (env : IOS.Faults) (kc kc0 : gmap string (list byte)) :
  sharedPreferences d !! k = None →
  kc !! k = None →
  IOS.onDelete env = None →
  SecureStorage.remove k d = (Normal tt, d)
  ∧ fst (SecureStoragePlugin.remove {["key" := k]} d) = resolve None
  ∧ SecureStorage.remove k (SecureStorage.remove k d0).2
    = SecureStorage.remove k d0
  ∧ IOS.SecureStorage.remove env k kc = (true, kc)
  ∧ IOS.SecureStorage.remove env k (IOS.SecureStorage.remove env k kc0).2
    = (true, (IOS.SecureStorage.remove env k kc0).2).
Proof.
  intros Hd Hkc Henv. repeat split.
  - unfold SecureStorage.remove, prefs_remove.
    rewrite delete_id by done. by rewrite device_eta.
  - unfold SecureStorage.remove, prefs_remove. simpl.
    by rewrite delete_delete_eq.
  - unfold IOS.SecureStorage.remove, IOS.SecItemDelete. by rewrite Henv, Hkc.
  - unfold IOS.SecureStorage.remove, IOS.SecItemDelete. rewrite Henv.
    destruct (kc0 !! k) eqn:Hk; simpl.
    + by rewrite lookup_delete_eq.
    + by rewrite Hk.
Qed.

Lemma remove_absent_key_is_noop_witness :
  let d := mkDevice {["a" := "x"]} [] 0 in
  let kc : gmap string (list byte) := {["a" := IOS.utf8 "x"]} in
  SecureStorage.remove "token" d = (Normal tt, d)
  ∧ fst (SecureStoragePlugin.remove {["key" := "token"]} d) = resolve None
  ∧ SecureStorage.remove "token" (SecureStorage.remove "token" d).2
    = SecureStorage.remove "token" d
  ∧ IOS.SecureStorage.remove IOS.noFaults "token" kc = (true, kc)
  ∧ IOS.SecureStorage.remove IOS.noFaults "token"
      (IOS.SecureStorage.remove IOS.noFaults "token" kc).2
    = (true, (IOS.SecureStorage.remove IOS.noFaults "token" kc).2).
Proof.
  apply (remove_absent_key_is_noop "token"
           (mkDevice {["a" := "x"]} [] 0) (mkDevice {["a" := "x"]} [] 0)
           IOS.noFaults {["a" := IOS.utf8 "x"]} {["a" := IOS.utf8 "x"]});
    reflexivity.
Defined.

Lemma ios_set_cases (env : IOS.Faults) (k v : string)
    (kc : gmap string (list byte)) :
  ∃ ok kc', IOS.SecureStorage.set env k v kc = (ok, kc')
    ∧ ((ok = true ∧ kc' = <[k := IOS.utf8 v]> kc)
       ∨ (ok = false ∧ (kc' = kc ∨ kc' = delete k kc))).
Proof.
  unfold IOS.SecureStorage.set, IOS.data_utf8, IOS.SecItemDelete,
    IOS.SecItemAdd.
  destruct (IOS.onDelete env) as [f1|], (IOS.onAdd env) as [f2|],
    (kc !! k) as [old|] eqn:Hk; simpl;
    rewrite ?lookup_delete_eq, ?Hk; simpl;
    do 2 eexists; (split; [reflexivity|]);
    rewrite ?insert_delete_eq;
    try (destruct f2; simpl; eauto 6; fail); eauto 6.
Qed.





(** ** Frame *)

Lemma set_prefs_cases (p : Platform) (k : string) (v : option string)
    (d : Device) :
  sharedPreferences (SecureStorage.set p k v d).2 = sharedPreferences d
  ∨ (∃ blob, sharedPreferences (SecureStorage.set p k v d).2
             = <[k := blob]> (sharedPreferences d))
  ∨ sharedPreferences (SecureStorage.set p k v d).2
    = delete k (sharedPreferences d).
Proof.
  destruct v as [v|].
  - destruct (set_value_cases p k v d) as (r & d' & -> & [H | (_ & blob & H)]);
      simpl; eauto.
  - right; right. reflexivity.
Qed.

(** C10.  For two distinct keys [k] and [k'], [set] on [k] (with a value or
    with null) and [remove] on [k] leave what is stored under [k'] as it
    was; [get] and [keys] leave every entry as it was.  On iOS [get] and
    [keys] only read the Keychain. *)
Theorem operations_touch_only_their_key (p : Platform) (k k' : string)
    (v : option string) (w : string) (d : Device) (env : IOS.Faults)
    (kc : gmap string (list byte)) :
  k ≠ k' →
  sharedPreferences (SecureStorage.set p k v d).2 !! k'
    = sharedPreferences d !! k'
  ∧ sharedPreferences (SecureStorage.remove k d).2 !! k'
    = sharedPreferences d !! k'
  ∧ sharedPreferences (SecureStorage.get p k d).2 = sharedPreferences d
  ∧ (SecureStorage.keys d).2 = d
  ∧ (IOS.SecureStorage.set env k w kc).2 !! k' = kc !! k'
  ∧ (IOS.SecureStorage.remove env k kc).2 !! k' = kc !! k'.
Proof.
  intros Hne. split; [|split; [|split; [|split; [|split]]]].
  - destruct (set_prefs_cases p k v d) as [-> | [[blob ->] | ->]].
    + done.
    + by rewrite lookup_insert_ne.
    + by rewrite lookup_delete_ne.
  - simpl. by rewrite lookup_delete_ne.
  - apply get_keeps_store.
  - reflexivity.
  - destruct (ios_set_cases env k w kc)
      as (ok & kc' & -> & [[_ ->] | [_ [-> | ->]]]); simpl.
    + by rewrite lookup_insert_ne.
    + done.
    + by rewrite lookup_delete_ne.
  - unfold IOS.SecureStorage.remove, IOS.SecItemDelete.
    destruct (IOS.onDelete env), (kc !! k); simpl; try done.
    by rewrite lookup_delete_ne.
Qed.

Lemma operations_touch_only_their_key_witness :
  let d := mkDevice {["b" := "blob"]} [] 0 in
  let kc : gmap string (list byte) := {["b" := IOS.utf8 "y"]} in
  "a" ≠ "b"
  ∧ sharedPreferences
      (SecureStorage.set Reference.platform "a" (Some "x") d).2 !! "b"
    = Some "blob"
  ∧ (IOS.SecureStorage.set IOS.noFaults "a" "x" kc).2 !! "b"
    = Some (IOS.utf8 "y").
Proof.
  split; [done|].
  pose proof (operations_touch_only_their_key Reference.platform "a" "b"
                (Some "x") "x" (mkDevice {["b" := "blob"]} [] 0) IOS.noFaults
                {["b" := IOS.utf8 "y"]} ltac:(done)) as (H1 & _ & _ & _ & H2 & _).
  split; [exact H1 | exact H2].
Defined.

(** ** Round trip *)

(** What [set] leaves in the store on a platform in working order: the
    Base64 text of the IV followed by the cipher output. *)
Lemma set_on_working_platform (p : Platform) (mk : SecretKey) (k v : string)
    (d : Device) :
  PlatformOK p mk →
  ∃ c ct c',
    Cipher_init_ENCRYPT p (Some mk) (draws d) = Normal c
    ∧ length (getIV c) = 12
    ∧ Cipher_init_DECRYPT p (Some mk) (mkGCMParameterSpec 128 (getIV c))
      = Normal c'
    ∧ Cipher_doFinal p c' ct = Normal (getBytes v)
    ∧ SecureStorage.set p k (Some v) d
      = (Normal tt,
         mkDevice (<[k := Base64_encodeToString p (getIV c ++ ct)]>
                     (sharedPreferences d))
                  (logcat d) (S (draws d))).
Proof.
  intros OK.
  destruct (seal_open_ok p mk OK (draws d) (getBytes v))
    as (c & ct & c' & Hinit & Hiv & Hfin & Hinit' & Hfin').
  unfold SecureStorage.GCM_IV_LENGTH in Hiv.
  exists c, ct, c'. repeat (split; [done|]).
  rewrite (set_stores p k v d (Some mk) c ct
             (getKey_ok p mk OK) (getInstance_ok p mk OK) Hinit) by (done || lia).
  by rewrite take_ge by lia.
Qed.

(** On well-formed UTF-8 the encoder and the decoder change nothing. *)
Lemma utf8_well_formed_fixed (fuel : nat) (bs : list byte) :
  well_formed_utf8 fuel bs = true →
  encode_utf8 fuel bs = bs ∧ decode_utf8 fuel bs = bs.
Proof.
  revert bs. induction fuel as [|fuel IH]; intros [|b bs] Hwf; try done.
  cbn [well_formed_utf8] in Hwf. cbn [encode_utf8 decode_utf8].
  destruct (utf8_sequence (b :: bs)) as [n|]; [|done].
  destruct (IH _ Hwf) as [-> ->]. by rewrite take_drop.
Qed.

(** A string without unpaired surrogate survives [getBytes] and
    [new String]. *)
Lemma newString_getBytes (v : string) :
  well_formed v = true → newString (getBytes v) = v.
Proof.
  unfold well_formed, newString, getBytes. intros Hwf.
  destruct (utf8_well_formed_fixed _ _ Hwf) as [Henc Hdec].
  rewrite Henc, Hdec. apply String.string_of_list_byte_of_string.
Qed.

(** What [get] returns after [set], for every value: the value decoded from
    its encoding. *)
Lemma android_set_then_get_decoded (p : Platform) (mk : SecretKey)
    (k v : string) (d : Device) :
  PlatformOK p mk →
  ∃ d1, SecureStorage.set p k (Some v) d = (Normal tt, d1)
        ∧ SecureStorage.get p k d1
          = (Normal (Some (newString (getBytes v))), d1).
Proof.
  intros OK.
  destruct (set_on_working_platform p mk k v d OK)
    as (c & ct & c' & Hinit & Hiv & Hinit' & Hfin' & ->).
  eexists. split; [reflexivity|].
  erewrite (get_decrypts p k _ _ (getIV c ++ ct) (Some mk) c').
  - rewrite drop_app_length' by done. by rewrite Hfin'.
  - simpl. apply lookup_insert_eq.
  - apply (Base64_ok p mk OK).
  - rewrite length_app. lia.
  - apply (getKey_ok p mk OK).
  - apply (getInstance_ok p mk OK).
  - by rewrite take_app_length' by done.
Qed.

Lemma android_set_then_get (p : Platform) (mk : SecretKey) (k v : string)
    (d : Device) :
  PlatformOK p mk →
  well_formed v = true →
  ∃ d1, SecureStorage.set p k (Some v) d = (Normal tt, d1)
        ∧ SecureStorage.get p k d1 = (Normal (Some v), d1).
Proof.
  intros OK Hwf.
  destruct (android_set_then_get_decoded p mk k v d OK) as (d1 & Hset & Hget).
  exists d1. by rewrite newString_getBytes in Hget.
Qed.

Lemma ios_set_then_get (env1 env2 : IOS.Faults) (k v : string)
    (kc : gmap string (list byte)) :
  IOS.onDelete env1 = None →
  IOS.onAdd env1 = None →
  IOS.onCopyMatching env2 = None →
  ∃ kc1, IOS.SecureStorage.set env1 k v kc = (true, kc1)
         ∧ IOS.SecureStorage.get env2 k kc1 = Some v.
Proof.
  intros Hdel Hadd Hcopy.
  unfold IOS.SecureStorage.set, IOS.SecureStorage.get, IOS.data_utf8,
    IOS.SecItemDelete, IOS.SecItemAdd, IOS.SecItemCopyMatching_data,
    IOS.String_utf8.
  rewrite Hdel, Hadd, Hcopy.
  destruct (kc !! k) as [old|] eqn:Hk; simpl;
    rewrite ?lookup_delete_eq, ?Hk; simpl;
    (eexists; split; [reflexivity|]);
    rewrite lookup_insert_eq;
    by rewrite String.string_of_list_byte_of_string.
Qed.

(** C1, as amended.  On an Android platform in working order, [set(k, v)]
    completes and a [get(k)] that follows returns exactly [v], whatever the
    key [k] and the value [v] without unpaired surrogate are (the empty
    string included).  The same holds on iOS when the Keychain calls get
    through. *)
Theorem set_then_get_returns_the_value (p : Platform) (mk : SecretKey)
    (k v : string) (d : Device) (env1 env2 : IOS.Faults)
    (kc : gmap string (list byte)) :
  PlatformOK p mk →
  well_formed v = true →
  IOS.onDelete env1 = None →
  IOS.onAdd env1 = None →
  IOS.onCopyMatching env2 = None →
  (∃ d1, SecureStorage.set p k (Some v) d = (Normal tt, d1)
         ∧ SecureStorage.get p k d1 = (Normal (Some v), d1))
  ∧ (∃ kc1, IOS.SecureStorage.set env1 k v kc = (true, kc1)
            ∧ IOS.SecureStorage.get env2 k kc1 = Some v).
Proof.
  intros OK Hwf Hdel Hadd Hcopy. split.
  - by apply (android_set_then_get p mk).
  - by apply ios_set_then_get.
Qed.

Lemma set_then_get_returns_the_value_witness :
  (∃ d1, SecureStorage.set Reference.platform "token" (Some "") Reference.fresh
         = (Normal tt, d1)
         ∧ SecureStorage.get Reference.platform "token" d1
           = (Normal (Some ""), d1))
  ∧ (∃ kc1, IOS.SecureStorage.set IOS.noFaults "token" "" ∅ = (true, kc1)
            ∧ IOS.SecureStorage.get IOS.noFaults "token" kc1 = Some "").
Proof.
  apply (set_then_get_returns_the_value Reference.platform Reference.master
           "token" "" Reference.fresh IOS.noFaults IOS.noFaults ∅).
  - exact platform_ok.
  - reflexivity.
  - reflexivity.
  - reflexivity.
  - reflexivity.
Defined.

(** C1, counterexample.  The Java string made of the one code unit U+D800,
    a surrogate without partner, is a value that [set] accepts: [getBytes]
    encodes it as [?], so the [get] that follows returns ["?"] and not the
    value. *)
Lemma set_then_get_loses_an_unpaired_surrogate :
  let v := String.string_of_list_byte [xed; xa0; x80] in
  getBytes v = [x3f]
  ∧ v ≠ "?"
  ∧ ∃ d1, SecureStorage.set Reference.platform "token" (Some v) Reference.fresh
          = (Normal tt, d1)
          ∧ SecureStorage.get Reference.platform "token" d1
            = (Normal (Some "?"), d1).
Proof.
  split; [reflexivity|]. split; [discriminate|].
  eexists. split; [vm_compute; reflexivity|]. vm_compute. reflexivity.
Qed.

(** ** Nonces *)

(** Two serialized records whose 12-byte IVs differ are different texts. *)
Lemma blobs_of_distinct_ivs_differ (p : Platform) (mk : SecretKey)
    (iv1 iv2 ct1 ct2 : list byte) :
  PlatformOK p mk →
  length iv1 = 12 →
  length iv2 = 12 →
  iv1 ≠ iv2 →
  Base64_encodeToString p (iv1 ++ ct1) ≠ Base64_encodeToString p (iv2 ++ ct2).
Proof.
  intros OK H1 H2 Hne Heq. apply Hne.
  assert (Hb : iv1 ++ ct1 = iv2 ++ ct2).
  { pose proof (Base64_ok p mk OK (iv1 ++ ct1)) as Hd1.
    pose proof (Base64_ok p mk OK (iv2 ++ ct2)) as Hd2.
    rewrite Heq, Hd2 in Hd1. by injection Hd1. }
  apply (f_equal (take 12)) in Hb.
  by rewrite !take_app_length' in Hb.
Qed.

(** C9.  On a platform in working order, two successive [set(k, v)] with the
    same value leave different blobs under [k] whenever the two IVs that the
    provider drew differ; and any two serialized records with distinct
    12-byte IVs [iv1] and [iv2] are different texts. *)
Theorem successive_sets_store_different_blobs (p : Platform) (mk : SecretKey)
    (k v : string) (d : Device) (c1 c2 : Cipher)
    (iv1 iv2 ct1 ct2 : list byte) :
  PlatformOK p mk →
  Cipher_init_ENCRYPT p (Some mk) (draws d) = Normal c1 →
  Cipher_init_ENCRYPT p (Some mk) (S (draws d)) = Normal c2 →
  getIV c1 ≠ getIV c2 →
  length iv1 = 12 →
  length iv2 = 12 →
  iv1 ≠ iv2 →
  (∃ blob1 blob2,
     sharedPreferences (SecureStorage.set p k (Some v) d).2 !! k = Some blob1
     ∧ sharedPreferences
         (SecureStorage.set p k (Some v) (SecureStorage.set p k (Some v) d).2).2
         !! k = Some blob2
     ∧ blob1 ≠ blob2)
  ∧ Base64_encodeToString p (iv1 ++ ct1) ≠ Base64_encodeToString p (iv2 ++ ct2).
Proof.
  intros OK Hc1 Hc2 Hne Hiv1 Hiv2 Hivs. split.
  - destruct (set_on_working_platform p mk k v d OK)
      as (c & ct & c' & Hinit & Hiv & _ & _ & ->).
    cbn [snd].
    destruct (set_on_working_platform p mk k v
                (mkDevice (<[k := Base64_encodeToString p (getIV c ++ ct)]>
                             (sharedPreferences d)) (logcat d) (S (draws d))) OK)
      as (c0 & ct0 & c0' & Hinit0 & Hiv0 & _ & _ & ->).
    cbn [snd sharedPreferences draws] in *.
    rewrite Hc1 in Hinit. rewrite Hc2 in Hinit0. simplify_eq.
    do 2 eexists. rewrite !lookup_insert_eq.
    split; [done|]. split; [done|].
    by apply (blobs_of_distinct_ivs_differ p mk).
  - by apply (blobs_of_distinct_ivs_differ p mk).
Qed.

Lemma successive_sets_store_different_blobs_witness :
  (∃ blob1 blob2,
     sharedPreferences
       (SecureStorage.set Reference.platform "token" (Some "abc123")
          Reference.fresh).2 !! "token" = Some blob1
     ∧ sharedPreferences
         (SecureStorage.set Reference.platform "token" (Some "abc123")
            (SecureStorage.set Reference.platform "token" (Some "abc123")
               Reference.fresh).2).2 !! "token" = Some blob2
     ∧ blob1 ≠ blob2)
  ∧ Base64_encodeToString Reference.platform
      (Reference.iv_of_draw 0 ++ [x01])
    ≠ Base64_encodeToString Reference.platform
        (Reference.iv_of_draw 1 ++ [x01]).
Proof.
  apply (successive_sets_store_different_blobs Reference.platform
           Reference.master "token" "abc123" Reference.fresh
           (mkCipher ENCRYPT_MODE Reference.master (Reference.iv_of_draw 0))
           (mkCipher ENCRYPT_MODE Reference.master (Reference.iv_of_draw 1))
           (Reference.iv_of_draw 0) (Reference.iv_of_draw 1) [x01] [x01]).
  - exact platform_ok.
  - reflexivity.
  - reflexivity.
  - vm_compute. discriminate.
  - reflexivity.
  - reflexivity.
  - vm_compute. discriminate.
Defined.

(** ** Enumeration *)

Lemma ios_set_ok (env : IOS.Faults) (k v : string)
    (kc : gmap string (list byte)) :
  IOS.onDelete env = None →
  IOS.onAdd env = None →
  IOS.SecureStorage.set env k v kc = (true, <[k := IOS.utf8 v]> kc).
Proof.
  intros Hdel Hadd.
  unfold IOS.SecureStorage.set, IOS.data_utf8, IOS.SecItemDelete,
    IOS.SecItemAdd.
  rewrite Hdel, Hadd.
  destruct (kc !! k) as [old|] eqn:Hk; simpl;
    rewrite ?lookup_delete_eq, ?Hk; simpl; by rewrite ?insert_delete_eq.
Qed.

Lemma ios_keys_ok (env : IOS.Faults) (kc : gmap string (list byte)) :
  IOS.onCopyMatching env = None →
  IOS.SecureStorage.keys env kc = (map_to_list kc).*1.
Proof.
  intros Hcopy.
  unfold IOS.SecureStorage.keys, IOS.SecItemCopyMatching_accounts.
  rewrite Hcopy.
  destruct (decide (kc = ∅)) as [->|Hne]; [|done].
  by rewrite map_to_list_empty.
Qed.

Lemma keys_of_two {A : Type} (x y : A) :
  (map_to_list (<["b" := y]> (<["a" := x]> (∅ : gmap string A)))).*1
  ≡ₚ ["a"; "b"].
Proof.
  rewrite map_to_list_insert by (by rewrite lookup_insert_ne).
  rewrite map_to_list_insert by done.
  rewrite map_to_list_empty. simpl. apply perm_swap.
Qed.

(** C8.  From an empty store, after [set("a","1")] and [set("b","2")] the
    operation [keys] yields ["a"] and ["b"], each once and nothing else, in
    some order; and after [clear], from any state, [keys] yields nothing.
    Android needs the platform in working order, iOS a Keychain whose calls
    get through. *)
Theorem keys_after_sets_and_after_clear (p : Platform) (mk : SecretKey)
    (log : list LogEntry) (n : nat) (d : Device) (env : IOS.Faults)
    (kc : gmap string (list byte)) :
  PlatformOK p mk →
  IOS.onDelete env = None →
  IOS.onAdd env = None →
  IOS.onCopyMatching env = None →
  (∃ ks, fst (SecureStorage.keys
                (SecureStorage.set p "b" (Some "2")
                   (SecureStorage.set p "a" (Some "1") (mkDevice ∅ log n)).2).2)
         = Normal ks
         ∧ ks ≡ₚ ["a"; "b"])
  ∧ fst (SecureStorage.keys (SecureStorage.clear d).2) = Normal []
  ∧ IOS.SecureStorage.keys env
      (IOS.SecureStorage.set env "b" "2"
         (IOS.SecureStorage.set env "a" "1" ∅).2).2 ≡ₚ ["a"; "b"]
  ∧ IOS.SecureStorage.keys env (IOS.SecureStorage.clear env kc).2 = [].
Proof.
  intros OK Hdel Hadd Hcopy. split; [|split; [|split]].
  - destruct (set_on_working_platform p mk "a" "1" (mkDevice ∅ log n) OK)
      as (c & ct & c' & _ & _ & _ & _ & ->).
    cbn [snd sharedPreferences logcat draws].
    match goal with
    | |- context [SecureStorage.set p "b" (Some "2") ?d1] =>
        destruct (set_on_working_platform p mk "b" "2" d1 OK)
          as (c0 & ct0 & c0' & _ & _ & _ & _ & ->)
    end.
    cbn [snd sharedPreferences logcat draws].
    eexists. split; [reflexivity|].
    apply keys_of_two.
  - unfold SecureStorage.keys, SecureStorage.clear, prefs_keySet, prefs_clear.
    cbn [fst snd sharedPreferences]. by rewrite map_to_list_empty.
  - rewrite !ios_set_ok by done. cbn [snd].
    rewrite ios_keys_ok by done. apply keys_of_two.
  - unfold IOS.SecureStorage.keys, IOS.SecureStorage.clear,
      IOS.SecItemDelete_service, IOS.SecItemCopyMatching_accounts.
    rewrite Hdel, Hcopy.
    destruct (decide (kc = ∅)) as [->|Hne]; cbn; by rewrite decide_True.
Qed.

Lemma keys_after_sets_and_after_clear_witness :
  (∃ ks, fst (SecureStorage.keys
                (SecureStorage.set Reference.platform "b" (Some "2")
                   (SecureStorage.set Reference.platform "a" (Some "1")
                      (mkDevice ∅ [] 0)).2).2)
         = Normal ks
         ∧ ks ≡ₚ ["a"; "b"])
  ∧ IOS.SecureStorage.keys IOS.noFaults
      (IOS.SecureStorage.set IOS.noFaults "b" "2"
         (IOS.SecureStorage.set IOS.noFaults "a" "1" ∅).2).2 ≡ₚ ["a"; "b"].
Proof.
  pose proof (keys_after_sets_and_after_clear Reference.platform
                Reference.master [] 0 Reference.fresh IOS.noFaults ∅
                platform_ok eq_refl eq_refl eq_refl) as (H1 & _ & H2 & _).
  split; [exact H1 | exact H2].
Defined.

(** ** Failures *)

Lemma BadPadding_is_caught_by_get (e : exn) :
  instanceOf e BadPaddingException = true →
  caught_by SecureStorage.get_catches e = true.
Proof. destruct e; (discriminate || reflexivity). Qed.

Lemma short_input_failure_is_caught_by_get (e : exn) :
  caught_by [BadPaddingException; IllegalBlockSizeException] e = true →
  caught_by SecureStorage.get_catches e = true.
Proof. destruct e; (discriminate || reflexivity). Qed.

(** What the bridge answers is what the engine returned. *)
Lemma plugin_get_of_engine (p : Platform) (k : string) (d : Device) :
  SecureStoragePlugin.get p {["key" := k]} d
  = match SecureStorage.get p k d with
    | (Normal value, d') => (resolve (Some (JSValue value)), d')
    | (Throw e, d') => (reject "Error retrieving value" (Some e), d')
    end.
Proof.
  unfold SecureStoragePlugin.get, getString, SecureStoragePlugin.try_resolve.
  by rewrite lookup_singleton_eq.
Qed.

(** C2, as amended.  In one store, let [k] be a key that was never set and
    [k'] a key whose blob fails authentication when it is decrypted (the
    cipher throws a [BadPaddingException], of which [AEADBadTagException]
    is a subclass).  [get] returns null for both, and so the bridge
    resolves [{value: null}] for both; for [k] nothing is logged, for [k']
    the line "Error retrieving value" is written to the log with the
    exception.  The log is all that tells the two apart. *)
Theorem get_returns_null_for_absent_and_for_corrupted (p : Platform)
    (k k' blob : string) (d : Device) (combined : list byte)
    (sk : option SecretKey) (c' : Cipher) (e : exn) :
  sharedPreferences d !! k = None →
  sharedPreferences d !! k' = Some blob →
  Base64_decode p blob = Normal combined →
  12 ≤ length combined →
  keyStore_getKey p SecureStorage.MASTER_KEY_ALIAS = Normal sk →
  Cipher_getInstance p SecureStorage.ENCRYPTION_TRANSFORMATION = Normal tt →
  Cipher_init_DECRYPT p sk (mkGCMParameterSpec 128 (take 12 combined))
    = Normal c' →
  Cipher_doFinal p c' (drop 12 combined) = Throw e →
  instanceOf e BadPaddingException = true →
  SecureStorage.get p k d = (Normal None, d)
  ∧ SecureStorage.get p k' d
    = (Normal None, logged d "Error retrieving value" e)
  ∧ fst (SecureStoragePlugin.get p {["key" := k]} d)
    = resolve (Some (JSValue None))
  ∧ fst (SecureStoragePlugin.get p {["key" := k']} d)
    = resolve (Some (JSValue None)).
Proof.
  intros Hk Hk' Hdec Hlen Hkey Hinst Hinit Hfin Hbad.
  assert (H1 : SecureStorage.get p k d = (Normal None, d))
    by (by apply get_absent).
  assert (H2 : SecureStorage.get p k' d
               = (Normal None, logged d "Error retrieving value" e)).
  { rewrite (get_decrypts p k' blob d combined sk c') by done.
    rewrite Hfin. unfold get_outcome.
    by rewrite BadPadding_is_caught_by_get. }
  rewrite !plugin_get_of_engine, H1, H2. done.
Qed.

Lemma get_returns_null_for_absent_and_for_corrupted_witness :
  SecureStorage.get Reference.platform "other" Reference.tampered
  = (Normal None, Reference.tampered)
  ∧ SecureStorage.get Reference.platform "token" Reference.tampered
    = (Normal None,
       logged Reference.tampered "Error retrieving value" AEADBadTagException)
  ∧ fst (SecureStoragePlugin.get Reference.platform {["key" := "other"]}
           Reference.tampered)
    = resolve (Some (JSValue None))
  ∧ fst (SecureStoragePlugin.get Reference.platform {["key" := "token"]}
           Reference.tampered)
    = resolve (Some (JSValue None)).
Proof.
  apply (get_returns_null_for_absent_and_for_corrupted Reference.platform
           "other" "token"
           "AAAAAAAAAAAAAAAAIkSuRSnxtQKFdbdW1bY6zewVqvGeVg=="
           Reference.tampered
           (replicate 12 x00
              ++ [x22; x44; xae; x45; x29; xf1; xb5; x02; x85; x75; xb7; x56;
                  xd5; xb6; x3a; xcd; xec; x15; xaa; xf1; x9e; x56])
           (Some Reference.master)
           (mkCipher DECRYPT_MODE Reference.master (replicate 12 x00))
           AEADBadTagException).
  - reflexivity.
  - reflexivity.
  - vm_compute. reflexivity.
  - vm_compute. lia.
  - reflexivity.
  - reflexivity.
  - reflexivity.
  - vm_compute. reflexivity.
  - reflexivity.
Defined.

(** C2, counterexample.  The blob of [written] decrypts to
    ["abc123"]; after one character of its ciphertext is changed the
    cipher throws [AEADBadTagException], and [get] does not fail: it
    returns null, as it does for a key that was never set, and the bridge
    resolves [{value: null}]. *)
Lemma get_on_tampered_blob_returns_null :
  fst (SecureStorage.get Reference.platform "token" Reference.written)
  = Normal (Some "abc123")
  ∧ Cipher_doFinal Reference.platform
      (mkCipher DECRYPT_MODE Reference.master (replicate 12 x00))
      [x22; x44; xae; x45; x29; xf1; xb5; x02; x85; x75; xb7; x56;
       xd5; xb6; x3a; xcd; xec; x15; xaa; xf1; x9e; x56]
    = Throw AEADBadTagException
  ∧ fst (SecureStorage.get Reference.platform "token" Reference.tampered)
    = Normal None
  ∧ fst (SecureStorage.get Reference.platform "never-set" Reference.tampered)
    = Normal None
  ∧ fst (SecureStoragePlugin.get Reference.platform {["key" := "token"]}
           Reference.tampered)
    = resolve (Some (JSValue None)).
Proof. vm_compute. repeat split; reflexivity. Qed.

(** C3, the code at the failing input.  The KeyStore has no key under the
    master alias.  [SecureStoragePlugin.set] with [{key: "token", value:
    "abc123"}] resolves as a success although nothing was stored: the
    [InvalidKeyException] of [cipher.init] was caught inside
    [SecureStorage.set] and went to the log only.  A [get] that follows
    resolves [{value: null}]. *)
Theorem plugin_set_resolves_although_encryption_failed :
  SecureStoragePlugin.set Reference.keyless
    {["key" := "token"; "value" := "abc123"]} Reference.fresh
  = (resolve None,
     mkDevice ∅
       [mkLogEntry SecureStorage.TAG "Error storing value" InvalidKeyException]
       1)
  ∧ fst (SecureStoragePlugin.get Reference.keyless {["key" := "token"]}
           (SecureStoragePlugin.set Reference.keyless
              {["key" := "token"; "value" := "abc123"]} Reference.fresh).2)
    = resolve (Some (JSValue None)).
Proof. vm_compute. split; reflexivity. Qed.

(** The bridge can reject a [set] only for an exception that the engine
    does not catch: whenever the statements of [set] throw one of the
    exceptions of its catch clause, the bridge resolves. *)
Lemma plugin_set_resolves_on_caught_exception (p : Platform) (k v : string)
    (d d' : Device) (e : exn) :
  SecureStorage.set_encrypt_and_put p k v d = (Throw e, d') →
  caught_by SecureStorage.set_catches e = true →
  SecureStoragePlugin.set p {["key" := k; "value" := v]} d
  = (resolve None, logged d' "Error storing value" e).
Proof.
  intros Hbody Hcaught.
  unfold SecureStoragePlugin.set, getString, SecureStoragePlugin.try_resolve.
  rewrite lookup_insert_eq, lookup_insert_ne by done.
  rewrite lookup_singleton_eq.
  unfold SecureStorage.set, try_catch. by rewrite Hbody, Hcaught.
Qed.

(** The bridge of iOS rejects a [set] that the engine reports as failed. *)
Lemma ios_plugin_set_rejects_failed_add (env : IOS.Faults) (f : IOS.Fault)
    (k v : string) (kc : gmap string (list byte)) :
  IOS.onAdd env = Some f →
  fst (IOS.SecureStoragePlugin.set env {["key" := k; "value" := v]} kc)
  = reject "Failed to store value" None.
Proof.
  intros Hadd.
  unfold IOS.SecureStoragePlugin.set, getString.
  rewrite lookup_insert_eq, lookup_insert_ne by done.
  rewrite lookup_singleton_eq.
  unfold IOS.SecureStorage.set, IOS.data_utf8, IOS.SecItemAdd. rewrite Hadd.
  destruct (IOS.SecItemDelete (IOS.onDelete env) k kc) as [st kc1].
  by destruct f.
Qed.

(** C4, as amended.  On a platform in working order, a blob that decodes to
    fewer than 12 + 16 bytes makes [get] return null, and the bridge resolve
    [{value: null}]: below 12 bytes by the length test of [get], with
    nothing logged; from 12 to 27 bytes because the cipher refuses the
    input, which [get] catches and logs. *)
Theorem get_on_short_blob_returns_null (p : Platform) (mk : SecretKey)
    (k blob : string) (combined : list byte) (d : Device) :
  PlatformOK p mk →
  sharedPreferences d !! k = Some blob →
  Base64_decode p blob = Normal combined →
  length combined < SecureStorage.GCM_IV_LENGTH + 16 →
  fst (SecureStorage.get p k d) = Normal None
  ∧ fst (SecureStoragePlugin.get p {["key" := k]} d)
    = resolve (Some (JSValue None))
  ∧ ((length combined < SecureStorage.GCM_IV_LENGTH
      ∧ snd (SecureStorage.get p k d) = d)
     ∨ (SecureStorage.GCM_IV_LENGTH ≤ length combined
        ∧ ∃ e, snd (SecureStorage.get p k d)
               = logged d "Error retrieving value" e)).
Proof.
  unfold SecureStorage.GCM_IV_LENGTH. intros OK Hk Hdec Hlen.
  destruct (decide (length combined < 12)) as [Hshort|Hlong].
  - rewrite plugin_get_of_engine.
    rewrite (get_short p k blob d combined) by done.
    split; [done|]. split; [done|]. by left.
  - destruct (open_short p mk OK (take 12 combined) (drop 12 combined))
      as (c' & e & Hinit & Hfin & Hcaught).
    { rewrite length_take. unfold SecureStorage.GCM_IV_LENGTH. lia. }
    { rewrite length_drop. lia. }
    rewrite plugin_get_of_engine.
    rewrite (get_decrypts p k blob d combined (Some mk) c')
      by (done || lia || apply (getKey_ok p mk OK)
          || apply (getInstance_ok p mk OK)).
    rewrite Hfin. unfold get_outcome.
    rewrite short_input_failure_is_caught_by_get by done.
    split; [done|]. split; [done|]. right. split; [lia|]. eauto.
Qed.

Lemma get_on_short_blob_returns_null_witness :
  fst (SecureStorage.get Reference.platform "token" Reference.truncated20)
  = Normal None
  ∧ fst (SecureStoragePlugin.get Reference.platform {["key" := "token"]}
           Reference.truncated20)
    = resolve (Some (JSValue None)).
Proof.
  pose proof (get_on_short_blob_returns_null Reference.platform
                Reference.master "token" "AAAAAAAAAAAAAAAAAAAAAAAAAAA="
                (replicate 20 x00) Reference.truncated20 platform_ok
                eq_refl eq_refl ltac:(vm_compute; lia)) as (H1 & H2 & _).
  split; [exact H1 | exact H2].
Defined.

(** C4, counterexample.  A stored blob of five bytes, and one of
    twenty bytes, make [get] return null, not an error, and the bridge
    resolves [{value: null}]. *)
Lemma get_on_truncated_blob_is_not_an_error :
  Base64_decode Reference.platform "AAECAwQ=" = Normal [x00; x01; x02; x03; x04]
  ∧ SecureStorage.get Reference.platform "token" Reference.truncated
    = (Normal None, Reference.truncated)
  ∧ fst (SecureStoragePlugin.get Reference.platform {["key" := "token"]}
           Reference.truncated)
    = resolve (Some (JSValue None))
  ∧ Base64_decode Reference.platform "AAAAAAAAAAAAAAAAAAAAAAAAAAA="
    = Normal (replicate 20 x00)
  ∧ fst (SecureStorage.get Reference.platform "token" Reference.truncated20)
    = Normal None.
Proof. vm_compute. repeat split; reflexivity. Qed.

(** * Further properties of the code *)

(** ** Android: the engine *)

(** X1.  Last write wins: on a platform in working order, after
    [set(k, v1)] and [set(k, v2)] both complete, [get(k)] returns [v2] when
    [v2] has no unpaired surrogate, and the store differs from the one
    before the two calls in the entry of [k] only, which holds one blob. *)
Theorem android_last_write_wins (p : Platform) (mk : SecretKey)
    (k v1 v2 : string) (d : Device) :
  PlatformOK p mk →
  well_formed v2 = true →
  ∃ d1 d2 blob,
    SecureStorage.set p k (Some v1) d = (Normal tt, d1)
    ∧ SecureStorage.set p k (Some v2) d1 = (Normal tt, d2)
    ∧ SecureStorage.get p k d2 = (Normal (Some v2), d2)
    ∧ sharedPreferences d2 = <[k := blob]> (sharedPreferences d).
Proof.
  intros OK Hwf.
  destruct (set_on_working_platform p mk k v1 d OK)
    as (c & ct & c' & _ & _ & _ & _ & H1).
  eexists. rewrite H1.
  destruct (android_set_then_get p mk k v2
              (mkDevice (<[k := Base64_encodeToString p (getIV c ++ ct)]>
                           (sharedPreferences d)) (logcat d) (S (draws d)))
              OK Hwf)
    as (d2 & H2 & Hget).
  exists d2.
  destruct (set_on_working_platform p mk k v2
              (mkDevice (<[k := Base64_encodeToString p (getIV c ++ ct)]>
                           (sharedPreferences d)) (logcat d) (S (draws d))) OK)
    as (c0 & ct0 & c0' & _ & _ & _ & _ & H2').
  eexists. split; [reflexivity|]. split; [exact H2|]. split; [exact Hget|].
  rewrite H2 in H2'. injection H2' as ->. cbn [sharedPreferences].
  apply insert_insert_eq.
Qed.

Lemma android_last_write_wins_witness :
  ∃ d1 d2 blob,
    SecureStorage.set Reference.platform "token" (Some "abc123")
      Reference.fresh = (Normal tt, d1)
    ∧ SecureStorage.set Reference.platform "token" (Some "") d1
      = (Normal tt, d2)
    ∧ SecureStorage.get Reference.platform "token" d2 = (Normal (Some ""), d2)
    ∧ sharedPreferences d2
      = <["token" := blob]> (sharedPreferences Reference.fresh).
Proof.
  apply (android_last_write_wins Reference.platform Reference.master
           "token" "abc123" "" Reference.fresh).
  - exact platform_ok.
  - reflexivity.
Defined.

(** X2.  After [remove(k)], from any state and on any platform, [get(k)]
    returns null without logging anything and without calling the KeyStore
    or the cipher, and [keys()] does not list [k]. *)
Theorem android_get_after_remove (p : Platform) (k : string) (d : Device) :
  SecureStorage.get p k (SecureStorage.remove k d).2
  = (Normal None,
     mkDevice (delete k (sharedPreferences d)) (logcat d) (draws d))
  ∧ ∃ ks, fst (SecureStorage.keys (SecureStorage.remove k d).2) = Normal ks
          ∧ k ∉ ks.
Proof.
  split.
  - apply get_absent. simpl. apply lookup_delete_eq.
  - eexists. split; [reflexivity|]. simpl.
    intros Hin. apply list_elem_of_fmap in Hin as ([k0 v] & -> & Hin).
    apply elem_of_map_to_list in Hin. simpl in Hin.
    by rewrite lookup_delete_eq in Hin.
Qed.

(** X3.  After [clear()], from any state and on any platform, [get] returns
    null for every key and logs nothing; [clear] itself empties the
    preferences and touches neither the log nor the IV counter. *)
Theorem android_get_after_clear (p : Platform) (k : string) (d : Device) :
  SecureStorage.clear d = (Normal tt, mkDevice ∅ (logcat d) (draws d))
  ∧ SecureStorage.get p k (SecureStorage.clear d).2
    = (Normal None, mkDevice ∅ (logcat d) (draws d)).
Proof.
  split; [reflexivity|]. apply get_absent. simpl. apply lookup_empty.
Qed.

(** X4.  A stored text that Base64 cannot decode is an error, not a null:
    when [Base64.decode] throws an exception that the catch clause of [get]
    does not list ([IllegalArgumentException] is one), [get] throws it, and
    the bridge rejects the call with "Error retrieving value"; the device
    is left as it was. *)
Theorem android_get_undecodable_blob_rejects (p : Platform) (k blob : string)
    (d : Device) (e : exn) :
  sharedPreferences d !! k = Some blob →
  Base64_decode p blob = Throw e →
  caught_by SecureStorage.get_catches e = false →
  SecureStorage.get p k d = (Throw e, d)
  ∧ SecureStoragePlugin.get p {["key" := k]} d
    = (reject "Error retrieving value" (Some e), d).
Proof.
  intros Hk Hdec Hnc.
  assert (H : SecureStorage.get p k d = (Throw e, d)).
  { unfold SecureStorage.get, SecureStorage.get_decode_and_decrypt. unfold_M.
    by rewrite Hk, Hdec, Hnc. }
  split; [done|]. by rewrite plugin_get_of_engine, H.
Qed.

Lemma android_get_undecodable_blob_rejects_witness :
  SecureStorage.get Reference.platform "token"
    (mkDevice {["token" := "A"]} [] 0)
  = (Throw IllegalArgumentException, mkDevice {["token" := "A"]} [] 0)
  ∧ SecureStoragePlugin.get Reference.platform {["key" := "token"]}
      (mkDevice {["token" := "A"]} [] 0)
    = (reject "Error retrieving value" (Some IllegalArgumentException),
       mkDevice {["token" := "A"]} [] 0).
Proof.
  apply (android_get_undecodable_blob_rejects Reference.platform "token" "A"
           (mkDevice {["token" := "A"]} [] 0) IllegalArgumentException);
    reflexivity.
Defined.

(** X5.  A lost master key reads as "not found": when the KeyStore has no
    key under the master alias and the cipher refuses the null key with
    [InvalidKeyException], [get] on a stored blob of 12 bytes or more
    returns null and logs the exception, while [keys()] still lists the
    key. *)
Theorem android_get_without_master_key (p : Platform) (k blob : string)
    (combined : list byte) (d : Device) :
  sharedPreferences d !! k = Some blob →
  Base64_decode p blob = Normal combined →
  12 ≤ length combined →
  keyStore_getKey p SecureStorage.MASTER_KEY_ALIAS = Normal None →
  Cipher_getInstance p SecureStorage.ENCRYPTION_TRANSFORMATION = Normal tt →
  Cipher_init_DECRYPT p None (mkGCMParameterSpec 128 (take 12 combined))
    = Throw InvalidKeyException →
  SecureStorage.get p k d
  = (Normal None, logged d "Error retrieving value" InvalidKeyException)
  ∧ SecureStoragePlugin.get p {["key" := k]} d
    = (resolve (Some (JSValue None)),
       logged d "Error retrieving value" InvalidKeyException)
  ∧ ∃ ks, fst (SecureStorage.keys d) = Normal ks ∧ k ∈ ks.
Proof.
  intros Hk Hdec Hlen Hkey Hinst Hinit.
  assert (H : SecureStorage.get p k d
              = (Normal None,
                 logged d "Error retrieving value" InvalidKeyException)).
  { unfold SecureStorage.get, SecureStorage.get_decode_and_decrypt. unfold_M.
    rewrite Hk, Hdec.
    unfold SecureStorage.GCM_IV_LENGTH, SecureStorage.GCM_TAG_LENGTH.
    rewrite (proj2 (Nat.ltb_ge _ _)) by done.
    rewrite arraycopy_into_fresh by (simpl; lia).
    rewrite length_new_byte_array.
    rewrite arraycopy_into_fresh by lia.
    rewrite drop_0, Hkey, Hinst. cbv beta iota zeta. by rewrite Hinit. }
  split; [done|]. split; [by rewrite plugin_get_of_engine, H|].
  eexists. split; [reflexivity|]. simpl.
  apply list_elem_of_fmap. exists (k, blob). split; [done|].
  by apply elem_of_map_to_list.
Qed.

Lemma android_get_without_master_key_witness :
  SecureStorage.get Reference.keyless "token" Reference.written
  = (Normal None,
     logged Reference.written "Error retrieving value" InvalidKeyException)
  ∧ SecureStoragePlugin.get Reference.keyless {["key" := "token"]}
      Reference.written
    = (resolve (Some (JSValue None)),
       logged Reference.written "Error retrieving value" InvalidKeyException)
  ∧ ∃ ks, fst (SecureStorage.keys Reference.written) = Normal ks
          ∧ "token" ∈ ks.
Proof.
  apply (android_get_without_master_key Reference.keyless "token"
           "AAAAAAAAAAAAAAAAHkSuRSnxtQKFdbdW1bY6zewVqvGeVg=="
           (replicate 12 x00
              ++ [x1e; x44; xae; x45; x29; xf1; xb5; x02; x85; x75; xb7; x56;
                  xd5; xb6; x3a; xcd; xec; x15; xaa; xf1; x9e; x56])
           Reference.written).
  - reflexivity.
  - vm_compute. reflexivity.
  - vm_compute. lia.
  - reflexivity.
  - reflexivity.
  - reflexivity.
Defined.

(** X6.  [get] only reads: whatever the platform does, a [get] leaves the
    device as it was or adds the single log line "Error retrieving value";
    it never writes a preference and never draws an IV. *)
Theorem android_get_effect_is_one_log_line (p : Platform) (k : string)
    (d : Device) :
  (SecureStorage.get p k d).2 = d
  ∨ ∃ e, (SecureStorage.get p k d).2 = logged d "Error retrieving value" e.
Proof.
  unfold SecureStorage.get, SecureStorage.get_decode_and_decrypt, logged.
  unfold_M. destruct_matches; eauto.
Qed.

(** X7.  [keys()] lists exactly the keys that have an entry, each once, and
    leaves the device as it was. *)
Theorem android_keys_are_the_stored_keys (d : Device) :
  ∃ ks, SecureStorage.keys d = (Normal ks, d)
        ∧ NoDup ks
        ∧ ∀ k, k ∈ ks ↔ is_Some (sharedPreferences d !! k).
Proof.
  eexists. split; [reflexivity|]. split.
  - apply NoDup_fst_map_to_list.
  - intros k. rewrite list_elem_of_fmap. split.
    + intros ([k0 v] & -> & Hin). apply elem_of_map_to_list in Hin. by exists v.
    + intros [v Hv]. exists (k, v). split; [done|].
      by apply elem_of_map_to_list.
Qed.

(** ** Android: the bridge *)

(** X8.  The bridge validates its arguments before it calls the engine: a
    call without ["key"] is rejected by [set], [get] and [remove] with "Key
    string must be provided", a [set] without ["value"] with "Value string
    must be provided", and the device is left as it was: a missing value
    never reaches the engine as a null, so it does not remove the entry. *)
Theorem android_bridge_rejects_missing_arguments (p : Platform)
    (c c' : gmap string string) (k : string) (d : Device) :
  c !! "key" = None →
  c' !! "key" = Some k →
  c' !! "value" = None →
  SecureStoragePlugin.set p c d = (reject "Key string must be provided" None, d)
  ∧ SecureStoragePlugin.get p c d
    = (reject "Key string must be provided" None, d)
  ∧ SecureStoragePlugin.remove c d
    = (reject "Key string must be provided" None, d)
  ∧ SecureStoragePlugin.set p c' d
    = (reject "Value string must be provided" None, d).
Proof.
  intros Hc Hk Hv.
  unfold SecureStoragePlugin.set, SecureStoragePlugin.get,
    SecureStoragePlugin.remove, getString.
  by rewrite Hc, Hk, Hv.
Qed.

Lemma android_bridge_rejects_missing_arguments_witness :
  let d := Reference.written in
  SecureStoragePlugin.set Reference.platform {["value" := "x"]} d
  = (reject "Key string must be provided" None, d)
  ∧ SecureStoragePlugin.get Reference.platform {["value" := "x"]} d
    = (reject "Key string must be provided" None, d)
  ∧ SecureStoragePlugin.remove {["value" := "x"]} d
    = (reject "Key string must be provided" None, d)
  ∧ SecureStoragePlugin.set Reference.platform {["key" := "token"]} d
    = (reject "Value string must be provided" None, d).
Proof.
  apply (android_bridge_rejects_missing_arguments Reference.platform
           {["value" := "x"]} {["key" := "token"]} "token" Reference.written);
    reflexivity.
Defined.

Lemma plugin_set_of_engine (p : Platform) (k v : string) (d : Device) :
  SecureStoragePlugin.set p {["key" := k; "value" := v]} d
  = match SecureStorage.set p k (Some v) d with
    | (Normal _, d') => (resolve None, d')
    | (Throw e, d') => (reject "Error storing value" (Some e), d')
    end.
Proof.
  unfold SecureStoragePlugin.set, getString, SecureStoragePlugin.try_resolve.
  rewrite lookup_insert_eq, lookup_insert_ne by done.
  by rewrite lookup_singleton_eq.
Qed.

(** X9.  Through the bridge, on a platform in working order and for a
    value [v] without unpaired surrogate: [set] with [{key: k, value: v}]
    resolves; then [get] with [{key: k}] resolves [{value: v}], [keys]
    resolves a list that holds [k], and after [remove] with [{key: k}] the
    engine has no value for [k]: its [get] returns null. *)
Theorem android_bridge_scenario (p : Platform) (mk : SecretKey) (k v : string)
    (d : Device) :
  PlatformOK p mk →
  well_formed v = true →
  ∃ d1 ks,
    SecureStoragePlugin.set p {["key" := k; "value" := v]} d
    = (resolve None, d1)
    ∧ SecureStoragePlugin.get p {["key" := k]} d1
      = (resolve (Some (JSValue (Some v))), d1)
    ∧ SecureStoragePlugin.keys ∅ d1 = (resolve (Some (JSKeys ks)), d1)
    ∧ k ∈ ks
    ∧ fst (SecureStoragePlugin.remove {["key" := k]} d1) = resolve None
    ∧ fst (SecureStorage.get p k
             (SecureStoragePlugin.remove {["key" := k]} d1).2)
      = Normal None.
Proof.
  intros OK Hwf.
  destruct (android_set_then_get p mk k v d OK Hwf) as (d1 & Hset & Hget).
  destruct (android_keys_are_the_stored_keys d1) as (ks & Hkeys & _ & Hks).
  exists d1, ks.
  rewrite plugin_set_of_engine, Hset.
  rewrite (plugin_get_of_engine p k d1), Hget.
  split; [done|]. split; [done|]. split.
  { unfold SecureStoragePlugin.keys, SecureStoragePlugin.try_resolve.
    by rewrite Hkeys. }
  split.
  { apply Hks.
    destruct (sharedPreferences d1 !! k) as [blob|] eqn:Hk; [by eexists|].
    rewrite (get_absent p k d1 Hk) in Hget. discriminate. }
  assert (Hrm : SecureStoragePlugin.remove {["key" := k]} d1
                = (resolve None, (SecureStorage.remove k d1).2)).
  { unfold SecureStoragePlugin.remove, getString,
      SecureStoragePlugin.try_resolve.
    by rewrite lookup_singleton_eq. }
  rewrite Hrm. split; [done|]. cbn [snd].
  by rewrite (proj1 (android_get_after_remove p k d1)).
Qed.

Lemma android_bridge_scenario_witness :
  ∃ d1 ks,
    SecureStoragePlugin.set Reference.platform
      {["key" := "token"; "value" := "abc123"]} Reference.fresh
    = (resolve None, d1)
    ∧ SecureStoragePlugin.get Reference.platform {["key" := "token"]} d1
      = (resolve (Some (JSValue (Some "abc123"))), d1)
    ∧ SecureStoragePlugin.keys ∅ d1 = (resolve (Some (JSKeys ks)), d1)
    ∧ "token" ∈ ks
    ∧ fst (SecureStoragePlugin.remove {["key" := "token"]} d1) = resolve None
    ∧ fst (SecureStorage.get Reference.platform "token"
             (SecureStoragePlugin.remove {["key" := "token"]} d1).2)
      = Normal None.
Proof.
  apply (android_bridge_scenario Reference.platform Reference.master
           "token" "abc123" Reference.fresh).
  - exact platform_ok.
  - reflexivity.
Defined.

(** X10.  The length 12 of the IV is built into [set]: when the provider
    hands out a shorter IV, the copy into the record throws
    [ArrayIndexOutOfBoundsException], which [set] does not catch; the
    bridge rejects with "Error storing value" and the preferences are left
    as they were. *)
Theorem android_set_with_short_iv_rejects (p : Platform) (k v : string)
    (d : Device) (sk : option SecretKey) (c : Cipher) (ct : list byte) :
  keyStore_getKey p SecureStorage.MASTER_KEY_ALIAS = Normal sk →
  Cipher_getInstance p SecureStorage.ENCRYPTION_TRANSFORMATION = Normal tt →
  Cipher_init_ENCRYPT p sk (draws d) = Normal c →
  length (getIV c) < 12 →
  Cipher_doFinal p c (getBytes v) = Normal ct →
  SecureStorage.set p k (Some v) d
  = (Throw ArrayIndexOutOfBoundsException,
     mkDevice (sharedPreferences d) (logcat d) (S (draws d)))
  ∧ SecureStoragePlugin.set p {["key" := k; "value" := v]} d
    = (reject "Error storing value" (Some ArrayIndexOutOfBoundsException),
       mkDevice (sharedPreferences d) (logcat d) (S (draws d))).
Proof.
  intros Hkey Hinst Hinit Hiv Hfin.
  assert (H : SecureStorage.set p k (Some v) d
              = (Throw ArrayIndexOutOfBoundsException,
                 mkDevice (sharedPreferences d) (logcat d) (S (draws d)))).
  { unfold SecureStorage.set, SecureStorage.set_encrypt_and_put. unfold_M.
    rewrite Hkey, Hinst. cbv beta iota zeta. rewrite Hinit, Hfin.
    cbv beta iota zeta.
    unfold arraycopy at 1. unfold SecureStorage.GCM_IV_LENGTH.
    rewrite (proj2 (Nat.leb_gt _ _)) by (simpl; lia).
    reflexivity. }
  split; [done|]. by rewrite plugin_set_of_engine, H.
Qed.

(** X26.  [get] returns a value only from the cipher: whenever [get(k)]
    returns a string, the key has a blob that Base64 decoded to 12 bytes or
    more, the cipher was initialised for decryption with the first 12 bytes
    as IV and a 128-bit tag, it accepted the remaining bytes, and the string
    is made of the bytes it returned; nothing was logged. *)
Theorem android_get_value_comes_from_the_cipher (p : Platform) (k v : string)
    (d d' : Device) :
  SecureStorage.get p k d = (Normal (Some v), d') →
  d' = d
  ∧ ∃ blob combined sk c' pt,
      sharedPreferences d !! k = Some blob
      ∧ Base64_decode p blob = Normal combined
      ∧ 12 ≤ length combined
      ∧ keyStore_getKey p SecureStorage.MASTER_KEY_ALIAS = Normal sk
      ∧ Cipher_init_DECRYPT p sk
          (mkGCMParameterSpec 128 (take 12 combined)) = Normal c'
      ∧ Cipher_doFinal p c' (drop 12 combined) = Normal pt
      ∧ v = newString pt.
Proof.
  unfold SecureStorage.get, SecureStorage.get_decode_and_decrypt. unfold_M.
  destruct (sharedPreferences d !! k) as [blob|] eqn:Hk; [|done].
  destruct (Base64_decode p blob) as [combined|e] eqn:Hdec;
    [|by destruct (caught_by _ e)].
  unfold SecureStorage.GCM_IV_LENGTH, SecureStorage.GCM_TAG_LENGTH.
  destruct (length combined <? 12) eqn:Hlen; [done|].
  apply Nat.ltb_ge in Hlen.
  rewrite arraycopy_into_fresh by (simpl; lia).
  rewrite length_new_byte_array.
  rewrite arraycopy_into_fresh by lia.
  rewrite drop_0, (take_ge (drop 12 combined)) by (rewrite length_drop; lia).
  destruct (keyStore_getKey p SecureStorage.MASTER_KEY_ALIAS) as [sk|e] eqn:Hkey;
    [|by destruct (caught_by _ e)].
  destruct (Cipher_getInstance p SecureStorage.ENCRYPTION_TRANSFORMATION)
    as [[]|e]; [|by destruct (caught_by _ e)].
  destruct (Cipher_init_DECRYPT p sk _) as [c'|e] eqn:Hinit;
    [|by destruct (caught_by _ e)].
  destruct (Cipher_doFinal p c' (drop 12 combined)) as [pt|e] eqn:Hfin;
    [|by destruct (caught_by _ e)].
  intros [= <- <-]. split; [done|].
  by exists blob, combined, sk, c', pt.
Qed.

Lemma android_get_value_comes_from_the_cipher_witness :
  ∃ blob combined sk c' pt,
    sharedPreferences Reference.written !! "token" = Some blob
    ∧ Base64_decode Reference.platform blob = Normal combined
    ∧ 12 ≤ length combined
    ∧ keyStore_getKey Reference.platform SecureStorage.MASTER_KEY_ALIAS
      = Normal sk
    ∧ Cipher_init_DECRYPT Reference.platform sk
        (mkGCMParameterSpec 128 (take 12 combined)) = Normal c'
    ∧ Cipher_doFinal Reference.platform c' (drop 12 combined) = Normal pt
    ∧ "abc123" = newString pt.
Proof.
  apply (android_get_value_comes_from_the_cipher Reference.platform "token"
           "abc123" Reference.written Reference.written).
  vm_compute. reflexivity.
Defined.

(** ** iOS *)



(** X12.  On iOS a failing read looks like an empty store: when
    [SecItemCopyMatching] fails, [get] returns nil for a key that is stored
    and [keys] returns no key, and the bridge resolves [{value: null}] and
    [{keys: []}] instead of rejecting. *)
Theorem ios_read_failure_reads_as_absent (env : IOS.Faults) (f : IOS.Fault)
    (k : string) (data : list byte) (kc : gmap string (list byte)) :
  IOS.onCopyMatching env = Some f →
  kc !! k = Some data →
  IOS.SecureStorage.get env k kc = None
  ∧ IOS.SecureStorage.keys env kc = []
  ∧ IOS.SecureStoragePlugin.get env {["key" := k]} kc
    = (resolve (Some (JSValue None)), kc)
  ∧ IOS.SecureStoragePlugin.keys env ∅ kc = (resolve (Some (JSKeys [])), kc).
Proof.
  intros Hcopy Hk.
  assert (H1 : IOS.SecureStorage.get env k kc = None).
  { unfold IOS.SecureStorage.get, IOS.SecItemCopyMatching_data.
    rewrite Hcopy. by destruct f. }
  assert (H2 : IOS.SecureStorage.keys env kc = []).
  { unfold IOS.SecureStorage.keys, IOS.SecItemCopyMatching_accounts.
    rewrite Hcopy. by destruct f. }
  split; [done|]. split; [done|]. split.
  - unfold IOS.SecureStoragePlugin.get, getString.
    by rewrite lookup_singleton_eq, H1.
  - unfold IOS.SecureStoragePlugin.keys. by rewrite H2.
Qed.

Lemma ios_read_failure_reads_as_absent_witness :
  let env := IOS.mkFaults None None (Some IOS.InteractionNotAllowed) in
  let kc : gmap string (list byte) := {["token" := IOS.utf8 "abc123"]} in
  IOS.SecureStorage.get env "token" kc = None
  ∧ IOS.SecureStorage.keys env kc = []
  ∧ IOS.SecureStoragePlugin.get env {["key" := "token"]} kc
    = (resolve (Some (JSValue None)), kc)
  ∧ IOS.SecureStoragePlugin.keys env ∅ kc = (resolve (Some (JSKeys [])), kc).
Proof.
  apply (ios_read_failure_reads_as_absent
           (IOS.mkFaults None None (Some IOS.InteractionNotAllowed))
           IOS.InteractionNotAllowed "token" (IOS.utf8 "abc123")
           {["token" := IOS.utf8 "abc123"]});
    reflexivity.
Defined.

(** X13.  The bridge of iOS reports a failed write: when [SecItemAdd] fails
    [set] is rejected with "Failed to store value"; when [SecItemDelete]
    fails [remove] is rejected with "Failed to remove value" and [clear]
    with "Failed to clear storage", and the Keychain is left as it was. *)
Theorem ios_bridge_rejects_failed_writes (env : IOS.Faults) (f1 f2 : IOS.Fault)
    (k v : string) (kc : gmap string (list byte)) :
  IOS.onDelete env = Some f1 →
  IOS.onAdd env = Some f2 →
  IOS.SecureStoragePlugin.set env {["key" := k; "value" := v]} kc
  = (reject "Failed to store value" None, kc)
  ∧ IOS.SecureStoragePlugin.remove env {["key" := k]} kc
    = (reject "Failed to remove value" None, kc)
  ∧ IOS.SecureStoragePlugin.clear env ∅ kc
    = (reject "Failed to clear storage" None, kc).
Proof.
  intros Hdel Hadd.
  unfold IOS.SecureStoragePlugin.set, IOS.SecureStoragePlugin.remove,
    IOS.SecureStoragePlugin.clear, getString.
  rewrite lookup_insert_eq, lookup_insert_ne by done.
  rewrite !lookup_singleton_eq.
  unfold IOS.SecureStorage.set, IOS.SecureStorage.remove,
    IOS.SecureStorage.clear, IOS.data_utf8, IOS.SecItemAdd, IOS.SecItemDelete,
    IOS.SecItemDelete_service.
  rewrite Hdel, Hadd. by destruct f1, f2.
Qed.

Lemma ios_bridge_rejects_failed_writes_witness :
  let env := IOS.mkFaults (Some IOS.NotAvailable) (Some IOS.NotAvailable) None in
  let kc : gmap string (list byte) := {["token" := IOS.utf8 "abc123"]} in
  IOS.SecureStoragePlugin.set env {["key" := "token"; "value" := "x"]} kc
  = (reject "Failed to store value" None, kc)
  ∧ IOS.SecureStoragePlugin.remove env {["key" := "token"]} kc
    = (reject "Failed to remove value" None, kc)
  ∧ IOS.SecureStoragePlugin.clear env ∅ kc
    = (reject "Failed to clear storage" None, kc).
Proof.
  apply (ios_bridge_rejects_failed_writes
           (IOS.mkFaults (Some IOS.NotAvailable) (Some IOS.NotAvailable) None)
           IOS.NotAvailable IOS.NotAvailable "token" "x"
           {["token" := IOS.utf8 "abc123"]});
    reflexivity.
Defined.

(** X14.  On iOS an overwrite needs the delete: when [SecItemDelete] fails
    and the key has an item, [SecItemAdd] meets the duplicate, [set]
    returns false and the old value stays readable. *)
Theorem ios_set_without_delete_keeps_old_value (env env' : IOS.Faults)
    (f : IOS.Fault) (k v old : string) (kc : gmap string (list byte)) :
  IOS.onDelete env = Some f →
  IOS.onAdd env = None →
  IOS.onCopyMatching env' = None →
  kc !! k = Some (IOS.utf8 old) →
  IOS.SecureStorage.set env k v kc = (false, kc)
  ∧ IOS.SecureStorage.get env' k (IOS.SecureStorage.set env k v kc).2
    = Some old.
Proof.
  intros Hdel Hadd Hcopy Hk.
  assert (H : IOS.SecureStorage.set env k v kc = (false, kc)).
  { unfold IOS.SecureStorage.set, IOS.data_utf8, IOS.SecItemDelete,
      IOS.SecItemAdd.
    by rewrite Hdel, Hadd, Hk. }
  rewrite H. split; [done|]. cbn [snd].
  unfold IOS.SecureStorage.get, IOS.SecItemCopyMatching_data, IOS.String_utf8.
  rewrite Hcopy, Hk. unfold IOS.utf8.
  by rewrite String.string_of_list_byte_of_string.
Qed.

Lemma ios_set_without_delete_keeps_old_value_witness :
  let env := IOS.mkFaults (Some IOS.Allocate) None None in
  let kc : gmap string (list byte) := {["token" := IOS.utf8 "old"]} in
  IOS.SecureStorage.set env "token" "new" kc = (false, kc)
  ∧ IOS.SecureStorage.get IOS.noFaults "token"
      (IOS.SecureStorage.set env "token" "new" kc).2 = Some "old".
Proof.
  apply (ios_set_without_delete_keeps_old_value
           (IOS.mkFaults (Some IOS.Allocate) None None) IOS.noFaults
           IOS.Allocate "token" "new" "old" {["token" := IOS.utf8 "old"]});
    reflexivity.
Defined.

(** X15.  On iOS, when the Keychain calls get through: [remove] returns
    true and a [get] of the key that follows returns nil; [clear] returns
    true, also on an empty Keychain, and leaves no item. *)
Theorem ios_remove_and_clear (env : IOS.Faults) (k : string)
    (kc : gmap string (list byte)) :
  IOS.onDelete env = None →
  IOS.SecureStorage.remove env k kc = (true, delete k kc)
  ∧ IOS.SecureStorage.get env k (IOS.SecureStorage.remove env k kc).2 = None
  ∧ IOS.SecureStorage.clear env kc = (true, ∅)
  ∧ IOS.SecureStoragePlugin.clear env ∅ kc = (resolve None, ∅).
Proof.
  intros Hdel.
  assert (H1 : IOS.SecureStorage.remove env k kc = (true, delete k kc)).
  { unfold IOS.SecureStorage.remove, IOS.SecItemDelete. rewrite Hdel.
    destruct (kc !! k) eqn:Hk; simpl; [done|]. by rewrite delete_id. }
  assert (H2 : IOS.SecureStorage.clear env kc = (true, ∅)).
  { unfold IOS.SecureStorage.clear, IOS.SecItemDelete_service. rewrite Hdel.
    by destruct (decide (kc = ∅)) as [->|]. }
  rewrite H1. split; [done|]. split; [|split; [done|]].
  - cbn [snd]. unfold IOS.SecureStorage.get, IOS.SecItemCopyMatching_data.
    destruct (IOS.onCopyMatching env) as [f|]; [by destruct f|].
    by rewrite lookup_delete_eq.
  - unfold IOS.SecureStoragePlugin.clear. by rewrite H2.
Qed.

Lemma ios_remove_and_clear_witness :
  let kc : gmap string (list byte) := {["token" := IOS.utf8 "abc123"]} in
  IOS.SecureStorage.remove IOS.noFaults "token" kc = (true, delete "token" kc)
  ∧ IOS.SecureStorage.get IOS.noFaults "token"
      (IOS.SecureStorage.remove IOS.noFaults "token" kc).2 = None
  ∧ IOS.SecureStorage.clear IOS.noFaults kc = (true, ∅)
  ∧ IOS.SecureStoragePlugin.clear IOS.noFaults ∅ kc = (resolve None, ∅).
Proof.
  apply (ios_remove_and_clear IOS.noFaults "token"
           {["token" := IOS.utf8 "abc123"]}).
  reflexivity.
Defined.

(** X16.  On iOS, when [SecItemCopyMatching] gets through, [keys] lists
    exactly the keys that have an item, each once. *)
Theorem ios_keys_are_the_stored_keys (env : IOS.Faults)
    (kc : gmap string (list byte)) (k : string) :
  IOS.onCopyMatching env = None →
  NoDup (IOS.SecureStorage.keys env kc)
  ∧ (k ∈ IOS.SecureStorage.keys env kc ↔ is_Some (kc !! k)).
Proof.
  intros Hcopy. rewrite ios_keys_ok by done. split.
  - apply NoDup_fst_map_to_list.
  - rewrite list_elem_of_fmap. split.
    + intros ([k0 v] & -> & Hin). apply elem_of_map_to_list in Hin. by exists v.
    + intros [v Hv]. exists (k, v). split; [done|].
      by apply elem_of_map_to_list.
Qed.

Lemma ios_keys_are_the_stored_keys_witness :
  NoDup (IOS.SecureStorage.keys IOS.noFaults {["token" := IOS.utf8 "abc123"]})
  ∧ ("token" ∈ IOS.SecureStorage.keys IOS.noFaults
                 {["token" := IOS.utf8 "abc123"]}
     ↔ is_Some (({["token" := IOS.utf8 "abc123"]}
                   : gmap string (list byte)) !! "token")).
Proof.
  apply (ios_keys_are_the_stored_keys IOS.noFaults
           {["token" := IOS.utf8 "abc123"]} "token").
  reflexivity.
Defined.

(** X17.  The bridge of iOS validates its arguments like the one of
    Android: a call without ["key"] is rejected by [set], [get] and
    [remove], a [set] without ["value"] is rejected, and the Keychain is
    left as it was. *)
Theorem ios_bridge_rejects_missing_arguments (env : IOS.Faults)
    (c c' : gmap string string) (k : string) (kc : gmap string (list byte)) :
  c !! "key" = None →
  c' !! "key" = Some k →
  c' !! "value" = None →
  IOS.SecureStoragePlugin.set env c kc
  = (reject "Key string must be provided" None, kc)
  ∧ IOS.SecureStoragePlugin.get env c kc
    = (reject "Key string must be provided" None, kc)
  ∧ IOS.SecureStoragePlugin.remove env c kc
    = (reject "Key string must be provided" None, kc)
  ∧ IOS.SecureStoragePlugin.set env c' kc
    = (reject "Value string must be provided" None, kc).
Proof.
  intros Hc Hk Hv.
  unfold IOS.SecureStoragePlugin.set, IOS.SecureStoragePlugin.get,
    IOS.SecureStoragePlugin.remove, getString.
  by rewrite Hc, Hk, Hv.
Qed.

Lemma ios_bridge_rejects_missing_arguments_witness :
  let kc : gmap string (list byte) := {["token" := IOS.utf8 "abc123"]} in
  IOS.SecureStoragePlugin.set IOS.noFaults {["value" := "x"]} kc
  = (reject "Key string must be provided" None, kc)
  ∧ IOS.SecureStoragePlugin.get IOS.noFaults {["value" := "x"]} kc
    = (reject "Key string must be provided" None, kc)
  ∧ IOS.SecureStoragePlugin.remove IOS.noFaults {["value" := "x"]} kc
    = (reject "Key string must be provided" None, kc)
  ∧ IOS.SecureStoragePlugin.set IOS.noFaults {["key" := "token"]} kc
    = (reject "Value string must be provided" None, kc).
Proof.
  apply (ios_bridge_rejects_missing_arguments IOS.noFaults {["value" := "x"]}
           {["key" := "token"]} "token" {["token" := IOS.utf8 "abc123"]});
    reflexivity.
Defined.

(** ** Web *)

Lemma string_app_inj (p a b : string) : p +:+ a = p +:+ b → a = b.
Proof.
  induction p as [|c p IH]; simpl; [done|].
  intros H. injection H as H. by apply IH.
Qed.

Lemma prefix_app (p k : string) : String.prefix p (p +:+ k) = true.
Proof.
  induction p as [|c p IH]; simpl.
  - by destruct k.
  - destruct (Ascii.ascii_dec c c); [apply IH | done].
Qed.

Lemma prefix_split (p s : string) :
  String.prefix p s = true → ∃ k, s = p +:+ k.
Proof.
  revert s. induction p as [|c p IH]; intros s H.
  - by exists s.
  - destruct s as [|c' s]; simpl in H; [done|].
    destruct (Ascii.ascii_dec c c') as [->|]; [|done].
    destruct (IH s H) as [k ->]. by exists k.
Qed.

Lemma substring_all (s : string) :
  String.substring 0 (String.length s) s = s.
Proof. induction s as [|c s IH]; simpl; [done|]. by rewrite IH. Qed.

Lemma substring_app (p k : string) :
  Web.substring (p +:+ k) (String.length p) = k.
Proof.
  unfold Web.substring. induction p as [|c p IH]; simpl.
  - rewrite Nat.sub_0_r. apply substring_all.
  - apply IH.
Qed.

Import Web.

(** The item names of the plugin among [Object.keys]. *)
Lemma web_keys_spec (ls : gmap string string) (k : string) :
  k ∈ SecureStorageWeb.keys ls ↔ is_Some (SecureStorageWeb.get k ls).
Proof.
  unfold SecureStorageWeb.keys, SecureStorageWeb.get, getItem, Object_keys,
    SecureStorageWeb.getKeyName, startsWith.
  rewrite list_elem_of_In, in_map_iff. split.
  - intros (name & <- & Hin). apply filter_In in Hin as [Hin Hpre].
    destruct (prefix_split _ _ Hpre) as [k' ->].
    rewrite substring_app.
    apply list_elem_of_In, list_elem_of_fmap in Hin as ([n v] & Hn & Hin).
    simpl in Hn. subst n. apply elem_of_map_to_list in Hin. by exists v.
  - intros [v Hv]. exists (SecureStorageWeb.storagePrefix +:+ k). split.
    + apply substring_app.
    + apply filter_In. split; [|apply prefix_app].
      apply list_elem_of_In, list_elem_of_fmap.
      exists (SecureStorageWeb.storagePrefix +:+ k, v). split; [done|].
      by apply elem_of_map_to_list.
Qed.

(** X18.  On the web, distinct keys never share an item: after [set(k, v)],
    [get(k')] returns [v] when [k'] is [k] and what it returned before
    otherwise; an item whose name is not the prefixed key is left as it
    was. *)
Theorem web_get_after_set (k k' v name : string) (ls : gmap string string) :
  name ≠ SecureStorageWeb.getKeyName k →
  SecureStorageWeb.get k' (SecureStorageWeb.set k v ls)
  = (if decide (k = k') then Some v else SecureStorageWeb.get k' ls)
  ∧ getItem name (SecureStorageWeb.set k v ls) = getItem name ls.
Proof.
  intros Hname.
  unfold SecureStorageWeb.get, SecureStorageWeb.set, getItem, setItem. split.
  - destruct (decide (k = k')) as [->|Hne].
    + apply lookup_insert_eq.
    + apply lookup_insert_ne. unfold SecureStorageWeb.getKeyName.
      intros H. by apply string_app_inj in H.
  - by apply lookup_insert_ne.
Qed.

Lemma web_get_after_set_witness :
  SecureStorageWeb.get "b" (SecureStorageWeb.set "a" "1" {["a" := "foreign"]})
  = None
  ∧ getItem "a" (SecureStorageWeb.set "a" "1" {["a" := "foreign"]})
    = Some "foreign".
Proof.
  pose proof (web_get_after_set "a" "b" "1" "a" {["a" := "foreign"]}
                ltac:(vm_compute; discriminate)) as [H1 H2].
  split; [exact H1 | exact H2].
Defined.

(** X19.  On the web, after [remove(k)], [get(k')] returns null when [k'] is
    [k] and what it returned before otherwise; an item whose name is not
    the prefixed key is left as it was. *)
Theorem web_get_after_remove (k k' name : string) (ls : gmap string string) :
  name ≠ SecureStorageWeb.getKeyName k →
  SecureStorageWeb.get k' (SecureStorageWeb.remove k ls)
  = (if decide (k = k') then None else SecureStorageWeb.get k' ls)
  ∧ getItem name (SecureStorageWeb.remove k ls) = getItem name ls.
Proof.
  intros Hname.
  unfold SecureStorageWeb.get, SecureStorageWeb.remove, getItem, removeItem.
  split.
  - destruct (decide (k = k')) as [->|Hne].
    + apply lookup_delete_eq.
    + apply lookup_delete_ne. unfold SecureStorageWeb.getKeyName.
      intros H. by apply string_app_inj in H.
  - by apply lookup_delete_ne.
Qed.

Lemma web_get_after_remove_witness :
  SecureStorageWeb.get "a"
    (SecureStorageWeb.remove "a" (SecureStorageWeb.set "a" "1" {["a" := "x"]}))
  = None
  ∧ getItem "a"
      (SecureStorageWeb.remove "a"
         (SecureStorageWeb.set "a" "1" {["a" := "x"]}))
    = Some "x".
Proof.
  pose proof (web_get_after_remove "a" "a" "a"
                (SecureStorageWeb.set "a" "1" {["a" := "x"]})
                ltac:(vm_compute; discriminate)) as [H1 H2].
  split; [exact H1 | exact H2].
Defined.

(** X20.  On the web, [keys()] lists exactly the keys for which [get]
    returns a value, each once, with the prefix taken off; items of other
    code in [localStorage] are not listed. *)
Theorem web_keys_are_the_stored_keys (ls : gmap string string) (k : string) :
  NoDup (SecureStorageWeb.keys ls)
  ∧ (k ∈ SecureStorageWeb.keys ls ↔ is_Some (SecureStorageWeb.get k ls)).
Proof.
  split; [|apply web_keys_spec].
  unfold SecureStorageWeb.keys, Object_keys.
  apply NoDup_ListNoDup, List.NoDup_map_NoDup_ForallPairs.
  - intros a b Ha Hb Heq.
    apply filter_In in Ha as [_ Ha]. apply filter_In in Hb as [_ Hb].
    unfold startsWith in *.
    destruct (prefix_split _ _ Ha) as [ka ->].
    destruct (prefix_split _ _ Hb) as [kb ->].
    rewrite !substring_app in Heq. by subst.
  - apply List.NoDup_filter, NoDup_ListNoDup, NoDup_fst_map_to_list.
Qed.

Lemma fold_removeItem_lookup (l : list string) (ls : gmap string string)
    (name : string) :
  fold_left (fun ls' key => removeItem key ls') l ls !! name
  = if decide (name ∈ l) then None else ls !! name.
Proof.
  revert ls. induction l as [|key l IH]; intros ls; cbn [fold_left].
  - by rewrite decide_False by apply not_elem_of_nil.
  - rewrite IH. unfold removeItem.
    destruct (decide (name ∈ l)) as [Hin|Hnin].
    + by rewrite decide_True by (by right).
    + destruct (decide (name = key)) as [->|Hne].
      * rewrite decide_True by left. apply lookup_delete_eq.
      * rewrite decide_False by (intros H; apply elem_of_cons in H; tauto).
        by apply lookup_delete_ne.
Qed.

(** X21.  On the web, [clear()] removes every item whose name starts with
    the prefix of the plugin and leaves every other item of [localStorage]
    as it was; after it [keys()] is empty. *)
Theorem web_clear_removes_only_plugin_items (ls : gmap string string)
    (name : string) :
  getItem name (SecureStorageWeb.clear ls)
  = (if startsWith name SecureStorageWeb.storagePrefix then None
     else getItem name ls)
  ∧ SecureStorageWeb.keys (SecureStorageWeb.clear ls) = [].
Proof.
  assert (Hclear : ∀ n, getItem n (SecureStorageWeb.clear ls)
            = if startsWith n SecureStorageWeb.storagePrefix then None
              else getItem n ls).
  { intros n. unfold getItem, SecureStorageWeb.clear.
    rewrite fold_removeItem_lookup.
    destruct (startsWith n SecureStorageWeb.storagePrefix) eqn:Hpre.
    - destruct (decide _) as [Hin|Hnin]; [done|].
      destruct (ls !! n) as [v|] eqn:Hn; [|done].
      exfalso. apply Hnin, list_elem_of_In, filter_In. split; [|done].
      apply list_elem_of_In, list_elem_of_fmap. exists (n, v).
      split; [done|]. by apply elem_of_map_to_list.
    - rewrite decide_False; [done|].
      intros Hin. apply list_elem_of_In, filter_In in Hin as [_ Hin].
      congruence. }
  split; [apply Hclear|].
  apply elem_of_nil_inv. intros k Hk.
  apply web_keys_spec in Hk as [v Hv].
  unfold SecureStorageWeb.get in Hv. rewrite Hclear in Hv.
  unfold startsWith, SecureStorageWeb.getKeyName in Hv.
  by rewrite prefix_app in Hv.
Qed.

(** ** Android: construction *)

Ltac unfold_I :=
  unfold AndroidInit.SecureStoragePlugin.load, AndroidInit.SecureStorage.new,
    AndroidInit.SecureStorage.generateMasterKey, AndroidInit.try_catch_init,
    mbind, AndroidInit.I_bind, AndroidInit.ibind, AndroidInit.service,
    AndroidInit.assign_keyStore, AndroidInit.assign_sharedPreferences,
    AndroidInit.containsAlias, AndroidInit.generateKey,
    AndroidInit.Log_e_init, AndroidInit.iret, AndroidInit.start in *.

Import AndroidInit.

(** X22.  The constructor never replaces a master key and never touches
    another alias: whatever the key services do, the KeyStore after [new
    SecureStorage(context)] is the KeyStore before, or the KeyStore before
    had no master key and now has one. *)
Theorem constructor_keeps_or_creates_master_key (s : KeyServices)
    (ks : gmap string SecretKey) (log : list (string * string * throwable)) :
  entries (AndroidInit.SecureStorage.new s (start ks log)).2 = ks
  ∨ (ks !! SecureStorage.MASTER_KEY_ALIAS = None
     ∧ ∃ k, entries (AndroidInit.SecureStorage.new s (start ks log)).2
            = <[SecureStorage.MASTER_KEY_ALIAS := k]> ks).
Proof.
  unfold_I. cbn [keyStore entries prefsOpened initLog].
  destruct (ks !! SecureStorage.MASTER_KEY_ALIAS) as [k0|] eqn:Hk.
  - rewrite bool_decide_eq_true_2 by done. cbn [negb].
    destruct_matches; eauto.
  - rewrite bool_decide_eq_false_2 by (by intros [? ?]). cbn [negb].
    destruct_matches; eauto.
Qed.

(** X23.  The master key is generated once.  When the key services work
    and the KeyStore has no master key, the constructor generates one, for
    encryption and decryption with GCM, no padding and randomized
    encryption, and stores it under the master alias; a constructor call on
    the KeyStore so obtained (the next start of the app) generates nothing
    and keeps that key.  Both calls log nothing and open the preferences. *)
Theorem constructor_generates_the_key_once (s : KeyServices)
    (ks : gmap string SecretKey) (k : SecretKey)
    (log log' : list (string * string * throwable)) :
  KeyStore_getInstance s KEYSTORE_PROVIDER = Done tt →
  KeyStore_load s = Done tt →
  KeyGenerator_getInstance s "AES" KEYSTORE_PROVIDER = Done tt →
  KeyGenerator_init s
    (mkKeyGenParameterSpec SecureStorage.MASTER_KEY_ALIAS 3 "GCM" "NoPadding"
                           true) = Done tt →
  KeyGenerator_generateKey s
    (mkKeyGenParameterSpec SecureStorage.MASTER_KEY_ALIAS 3 "GCM" "NoPadding"
                           true) ks = Done k →
  ks !! SecureStorage.MASTER_KEY_ALIAS = None →
  AndroidInit.SecureStorage.new s (start ks log)
  = (Done tt,
     mkInstance (ksInstance true) true
                (<[SecureStorage.MASTER_KEY_ALIAS := k]> ks) log)
  ∧ AndroidInit.SecureStorage.new s
      (start (<[SecureStorage.MASTER_KEY_ALIAS := k]> ks) log')
    = (Done tt,
       mkInstance (ksInstance true) true
                  (<[SecureStorage.MASTER_KEY_ALIAS := k]> ks) log').
Proof.
  intros Hinst Hload Hgen Hinit Hkey Hk. split.
  - unfold_I. cbn [keyStore entries prefsOpened initLog].
    rewrite Hinst, Hload. cbn [keyStore entries prefsOpened initLog].
    rewrite bool_decide_eq_false_2 by (rewrite Hk; by intros [? ?]).
    cbn [negb].
    change SecureStorage.ENCRYPTION_ALGORITHM with "AES".
    rewrite Hgen.
    change (N.lor PURPOSE_ENCRYPT PURPOSE_DECRYPT) with 3%N.
    change SecureStorage.ENCRYPTION_BLOCK_MODE with "GCM".
    change SecureStorage.ENCRYPTION_PADDING with "NoPadding".
    rewrite Hinit. cbn [keyStore entries prefsOpened initLog].
    by rewrite Hkey.
  - unfold_I. cbn [keyStore entries prefsOpened initLog].
    rewrite Hinst, Hload. cbn [keyStore entries prefsOpened initLog].
    rewrite bool_decide_eq_true_2 by (rewrite lookup_insert_eq; by eexists).
    done.
Qed.

Lemma constructor_generates_the_key_once_witness :
  AndroidInit.SecureStorage.new Samples.services (start ∅ [])
  = (Done tt,
     mkInstance (ksInstance true) true
                (<[SecureStorage.MASTER_KEY_ALIAS := Reference.master]> ∅) [])
  ∧ AndroidInit.SecureStorage.new Samples.services
      (start (<[SecureStorage.MASTER_KEY_ALIAS := Reference.master]> ∅) [])
    = (Done tt,
       mkInstance (ksInstance true) true
                  (<[SecureStorage.MASTER_KEY_ALIAS := Reference.master]> ∅) []).
Proof.
  apply (constructor_generates_the_key_once Samples.services ∅
           Reference.master [] []); reflexivity.
Defined.

(** X24.  A KeyStore that cannot be created or loaded is not an error of
    the constructor: when [keyStore.load] throws one of the four exceptions
    of the catch clause, [new SecureStorage(context)] completes normally
    with one line "Error initializing SecureStorage" in the log; the field
    [sharedPreferences] was never assigned and no key was generated. *)
Theorem constructor_swallows_a_keystore_failure (s : KeyServices)
    (ks : gmap string SecretKey) (log : list (string * string * throwable))
    (t : throwable) :
  KeyStore_getInstance s KEYSTORE_PROVIDER = Done tt →
  KeyStore_load s = Raise t →
  catches [Thrown KeyStoreException; CertificateException;
           Thrown NoSuchAlgorithmException; IOException] t = true →
  AndroidInit.SecureStoragePlugin.load s (start ks log)
  = (Done tt,
     mkInstance (ksInstance false) false ks
       (log ++ [(SecureStorage.TAG, "Error initializing SecureStorage", t)])).
Proof.
  intros Hinst Hload Hcatch. unfold_I.
  cbn [keyStore entries prefsOpened initLog].
  by rewrite Hinst, Hload, Hcatch.
Qed.

Lemma constructor_swallows_a_keystore_failure_witness :
  AndroidInit.SecureStoragePlugin.load Samples.no_keystore (start ∅ [])
  = (Done tt,
     mkInstance (ksInstance false) false ∅
       [(SecureStorage.TAG, "Error initializing SecureStorage", IOException)]).
Proof.
  apply (constructor_swallows_a_keystore_failure Samples.no_keystore ∅ []
           IOException); reflexivity.
Defined.

(** X25.  A failed key generation is silent twice.  When the KeyStore has
    no master key and [KeyGenerator.getInstance] throws one of the three
    exceptions that [generateMasterKey] catches, the constructor completes
    normally, logs "Error generating master key" and leaves the KeyStore
    without a master key.  On a platform that reads this KeyStore and
    whose cipher refuses a null key, a [set] through the bridge then
    resolves as a success, stores nothing and logs "Error storing value". *)
Theorem failed_key_generation_makes_set_a_silent_noop (s : KeyServices)
    (ks : gmap string SecretKey) (log : list (string * string * throwable))
    (t : throwable) (p : Platform) (k v : string) (d : Device) :
  KeyStore_getInstance s KEYSTORE_PROVIDER = Done tt →
  KeyStore_load s = Done tt →
  ks !! SecureStorage.MASTER_KEY_ALIAS = None →
  KeyGenerator_getInstance s "AES" KEYSTORE_PROVIDER = Raise t →
  catches [Thrown NoSuchAlgorithmException; NoSuchProviderException;
           Thrown InvalidAlgorithmParameterException] t = true →
  reads_keystore p (entries (AndroidInit.SecureStorage.new s (start ks log)).2) →
  AndroidInit.SecureStorage.new s (start ks log)
  = (Done tt,
     mkInstance (ksInstance true) true ks
       (log ++ [(SecureStorage.TAG, "Error generating master key", t)]))
  ∧ SecureStoragePlugin.set p {["key" := k; "value" := v]} d
    = (resolve None,
       mkDevice (sharedPreferences d)
         (logcat d ++ [mkLogEntry SecureStorage.TAG "Error storing value"
                                  InvalidKeyException])
         (S (draws d))).
Proof.
  intros Hinst Hload Hk Hgen Hcatch Hreads.
  assert (Hnew : AndroidInit.SecureStorage.new s (start ks log)
            = (Done tt,
               mkInstance (ksInstance true) true ks
                 (log ++ [(SecureStorage.TAG, "Error generating master key",
                           t)]))).
  { unfold_I. cbn [keyStore entries prefsOpened initLog].
    rewrite Hinst, Hload. cbn [keyStore entries prefsOpened initLog].
    rewrite bool_decide_eq_false_2 by (rewrite Hk; by intros [? ?]).
    cbn [negb]. change SecureStorage.ENCRYPTION_ALGORITHM with "AES".
    by rewrite Hgen, Hcatch. }
  split; [done|].
  rewrite Hnew in Hreads. cbn [snd entries] in Hreads.
  destruct Hreads as (Hget & Hci & Hinit).
  rewrite plugin_set_of_engine.
  unfold SecureStorage.set, SecureStorage.set_encrypt_and_put. unfold_M.
  by rewrite Hget, Hk, Hci, Hinit.
Qed.

Lemma failed_key_generation_makes_set_a_silent_noop_witness :
  AndroidInit.SecureStorage.new Samples.no_generator (start ∅ [])
  = (Done tt,
     mkInstance (ksInstance true) true ∅
       [(SecureStorage.TAG, "Error generating master key",
         NoSuchProviderException)])
  ∧ SecureStoragePlugin.set Reference.keyless
      {["key" := "token"; "value" := "abc123"]} Reference.fresh
    = (resolve None,
       mkDevice (sharedPreferences Reference.fresh)
         (logcat Reference.fresh
            ++ [mkLogEntry SecureStorage.TAG "Error storing value"
                           InvalidKeyException])
         (S (draws Reference.fresh))).
Proof.
  apply (failed_key_generation_makes_set_a_silent_noop Samples.no_generator ∅
           [] NoSuchProviderException Reference.keyless "token" "abc123"
           Reference.fresh); try reflexivity.
  split; [|split]; reflexivity.
Defined.

Lemma android_set_with_short_iv_rejects_witness :
  SecureStorage.set Samples.short_iv "token" (Some "abc123") Reference.fresh
  = (Throw ArrayIndexOutOfBoundsException, mkDevice ∅ [] 1)
  ∧ SecureStoragePlugin.set Samples.short_iv
      {["key" := "token"; "value" := "abc123"]} Reference.fresh
    = (reject "Error storing value" (Some ArrayIndexOutOfBoundsException),
       mkDevice ∅ [] 1).
Proof.
  apply (android_set_with_short_iv_rejects Samples.short_iv "token" "abc123"
           Reference.fresh (Some Reference.master)
           (mkCipher ENCRYPT_MODE Reference.master (replicate 8 x00))
           (Reference.seal Reference.master (replicate 8 x00)
              (getBytes "abc123")));
    try reflexivity.
  vm_compute. lia.
Defined.
